(** * Project-Raven: the Tailscale add-on services and the setup wizard

    A shallow embedding of three Python sources of the repository:

    - [archive/libreelec-tailscale-addon/source/default.py]
      (class [TailscaleService], module [TailscaleService] below),
    - [configurations/addons/service.tailscale-config/service.py]
      (class [TailscaleConfigService]),
    - [libreelec-custom-build/.../setup-wizard/source/default.py]
      (class [RavenSetupWizard], method [save_config]).

    The Python code is effectful: it spawns processes, writes log lines,
    raises and swallows exceptions.  Every method is a function in a small
    state-and-exception monad over the object's fields and the trace of the
    effects performed so far.  Everything the outside world decides (the
    result of a subprocess, whether Kodi requests an abort, what
    [json.loads] makes of a string) is read from an environment [Env] whose
    answers may depend on the whole trace. *)

From stdpp Require Import gmap strings list fin_maps pretty.
From Stdlib Require Import ZArith Ascii Lia.

Set Warnings "-register-all".

(** ** Python strings and paths *)

Module Py.

(** Truth value of a [str]: non-empty. *)
Definition truthy (s : string) : bool :=
  match s with EmptyString => false | String _ _ => true end.

(** [a or b] on strings. *)
Definition or_ (a b : string) : string := if truthy a then a else b.

(** [sep.join(l)]. *)
Definition join (sep : string) (l : list string) : string := String.concat sep l.

(** [s.startswith(p)] and [s.endswith(p)]. *)
Definition startswith (s p : string) : bool := String.prefix p s.

Fixpoint endswith (s p : string) : bool :=
  String.eqb s p ||
  match s with
  | EmptyString => false
  | String _ r => endswith r p
  end.

(** [needle in hay]. *)
Fixpoint contains (hay needle : string) : bool :=
  String.prefix needle hay ||
  match hay with
  | EmptyString => false
  | String _ r => contains r needle
  end.

(** A string holds the UTF-8 encoding of a Python [str]; a byte that is
    not part of a well-formed sequence stands for the code point of the
    same number.  [chars] cuts a string into its characters: a lead byte
    with its continuation bytes, or a single byte. *)
Definition is_continuation (c : ascii) : bool :=
  let n := nat_of_ascii c in (128 <=? n) && (n <=? 191).

(** The second byte of a sequence: some lead bytes narrow its range, so
    that no character has two encodings and no surrogate or code point
    past U+10FFFF has one. *)
Definition is_second (lead : nat) (c : ascii) : bool :=
  let n := nat_of_ascii c in
  if lead =? 224 then (160 <=? n) && (n <=? 191)
  else if lead =? 237 then (128 <=? n) && (n <=? 159)
  else if lead =? 240 then (144 <=? n) && (n <=? 191)
  else if lead =? 244 then (128 <=? n) && (n <=? 143)
  else is_continuation c.

Fixpoint chars (s : string) : list string :=
  match s with
  | EmptyString => []
  | String c1 r1 =>
      let n := nat_of_ascii c1 in
      let single := String c1 EmptyString :: chars r1 in
      match r1 with
      | EmptyString => single
      | String c2 r2 =>
          if (194 <=? n) && (n <=? 223) && is_continuation c2 then
            String c1 (String c2 EmptyString) :: chars r2
          else
            match r2 with
            | EmptyString => single
            | String c3 r3 =>
                if (224 <=? n) && (n <=? 239) && is_second n c2 && is_continuation c3
                then String c1 (String c2 (String c3 EmptyString)) :: chars r3
                else
                  match r3 with
                  | EmptyString => single
                  | String c4 r4 =>
                      if (240 <=? n) && (n <=? 244) && is_second n c2
                         && is_continuation c3 && is_continuation c4
                      then String c1 (String c2 (String c3 (String c4 EmptyString)))
                           :: chars r4
                      else single
                  end
            end
      end
  end.

(** The code point of a character. *)
Definition code_point (ch : string) : N :=
  match List.map N_of_ascii (String.list_ascii_of_string ch) with
  | [a] => a
  | [a; b] => (a - 192) * 64 + (b - 128)
  | [a; b; c] => (a - 224) * 4096 + (b - 128) * 64 + (c - 128)
  | [a; b; c; d] => (a - 240) * 262144 + (b - 128) * 4096 + (c - 128) * 64 + (d - 128)
  | _ => 0
  end%N.

(** The characters for which [str.isspace] holds, which [str.strip]
    removes: U+0009 to U+000D, U+001C to U+0020, U+0085, U+00A0, U+1680,
    U+2000 to U+200A, U+2028, U+2029, U+202F, U+205F and U+3000. *)
Definition isspace (ch : string) : bool :=
  let n := code_point ch in
  (((9 <=? n) && (n <=? 13)) || ((28 <=? n) && (n <=? 32))
   || (n =? 133) || (n =? 160) || (n =? 5760)
   || ((8192 <=? n) && (n <=? 8202))
   || (n =? 8232) || (n =? 8233) || (n =? 8239) || (n =? 8287) || (n =? 12288))%N.

Fixpoint lstrip_chars (l : list string) : list string :=
  match l with
  | [] => []
  | ch :: r => if isspace ch then lstrip_chars r else l
  end.

Definition rstrip_chars (l : list string) : list string :=
  rev (lstrip_chars (rev l)).

(** [s.lstrip()], [s.rstrip()] and [s.strip()]. *)
Definition lstrip (s : string) : string :=
  String.concat "" (lstrip_chars (chars s)).

Definition rstrip (s : string) : string :=
  String.concat "" (rstrip_chars (chars s)).

Definition strip (s : string) : string :=
  String.concat "" (rstrip_chars (lstrip_chars (chars s))).

(** [str(b)] for a [bool], as an f-string prints it. *)
Definition str_bool (b : bool) : string := if b then "True" else "False".

(** [s[:n]]: the first [n] characters. *)
Definition take (n : nat) (s : string) : string :=
  String.concat "" (firstn n (chars s)).

(** One step of [posixpath.join]: an absolute component replaces the path
    built so far, otherwise it is appended after a single slash. *)
Definition path_join2 (path b : string) : string :=
  if startswith b "/" then b
  else if negb (truthy path) || endswith path "/" then path +:+ b
  else path +:+ "/" +:+ b.

(** [os.path.join(a, *p)]. *)
Definition path_join (a : string) (p : list string) : string :=
  fold_left path_join2 p a.

End Py.

(** ** Exceptions, results and the effect monad *)

(** Whether an exception class derives from [Exception] (and is caught by
    [except Exception]) or only from [BaseException] ([KeyboardInterrupt],
    [SystemExit]), which only a bare [except:] catches. *)
Inductive exn_kind := KException | KBaseException.

Record exn := mk_exn {
  exn_class : string;
  exn_kind_of : exn_kind;
  exn_str : string          (* str(e) *)
}.

Definition is_Exception (e : exn) : bool :=
  match exn_kind_of e with KException => true | KBaseException => false end.

(** How a call ends: it returns, it raises, or (for the polling loop run
    with a bound on its iterations) the bound was reached first. *)
Inductive res (A : Type) :=
| Ret (a : A)
| Raise (e : exn)
| Unfinished.
Arguments Ret {A} a.
Arguments Raise {A} e.
Arguments Unfinished {A}.

Definition M (S A : Type) : Type := S -> res A * S.

Definition ret {S A} (a : A) : M S A := fun s => (Ret a, s).

Definition bind {S A B} (c : M S A) (k : A -> M S B) : M S B :=
  fun s =>
    match c s with
    | (Ret a, s') => k a s'
    | (Raise e, s') => (Raise e, s')
    | (Unfinished, s') => (Unfinished, s')
    end.

Definition raise {S A} (e : exn) : M S A := fun s => (Raise e, s).

(** [try: body / except Exception as e: handler e]. *)
Definition try_except_Exception {S A} (body : M S A) (handler : exn -> M S A) : M S A :=
  fun s =>
    match body s with
    | (Raise e, s') => if is_Exception e then handler e s' else (Raise e, s')
    | r => r
    end.

(** [try: body / except: handler] (a bare [except] catches everything). *)
Definition try_except {S A} (body : M S A) (handler : M S A) : M S A :=
  fun s =>
    match body s with
    | (Raise e, s') => handler s'
    | r => r
    end.

Declare Scope py_scope.
Delimit Scope py_scope with py.
Notation "x <- c1 ;; c2" := (bind c1 (fun x => c2))
  (at level 100, c1 at next level, right associativity) : py_scope.
Notation "c1 ;; c2" := (bind c1 (fun _ => c2))
  (at level 100, right associativity) : py_scope.
Open Scope py_scope.

(** ** Values decoded by [json.loads] *)

(** A float is kept up to what the code can observe of it, its truth value. *)
Inductive json :=
| JNone
| JBool (b : bool)
| JInt (z : Z)
| JFloat (nonzero : bool)
| JStr (s : string)
| JList (l : list json)
| JDict (d : gmap string json).

(** [bool(v)]. *)
Definition json_truthy (v : json) : bool :=
  match v with
  | JNone => false
  | JBool b => b
  | JInt z => negb (z =? 0)%Z
  | JFloat nz => nz
  | JStr s => Py.truthy s
  | JList l => match l with [] => false | _ => true end
  | JDict d => match map_to_list d with [] => false | _ => true end
  end.

(** [type(v).__name__]. *)
Definition json_type_name (v : json) : string :=
  match v with
  | JNone => "NoneType"
  | JBool _ => "bool"
  | JInt _ => "int"
  | JFloat _ => "float"
  | JStr _ => "str"
  | JList _ => "list"
  | JDict _ => "dict"
  end.

(** [v == s] for a string literal [s]. *)
Definition json_eq_str (v : json) (s : string) : bool :=
  match v with
  | JStr t => String.eqb t s
  | _ => false
  end.

(** ** Effects and the environment *)

Inductive log_level := LOGDEBUG | LOGINFO | LOGWARNING | LOGERROR.
Inductive notify_icon := NOTIFICATION_INFO | NOTIFICATION_ERROR.

(** One entry per effect the code performs on the outside world. [EvKill]
    is [Popen.kill()], the forced termination of a child. *)
Inductive event :=
| EvLog (lvl : log_level) (msg : string)
| EvRun (argv : list string) (timeout : option nat)
| EvShell (cmd : string)
| EvPopen (argv : list string) (home : string)
| EvPoll (pid : nat)
| EvTerminate (pid : nat)
| EvWait (pid : nat) (timeout : nat)
| EvKill (pid : nat)
| EvSleep (secs : nat)
| EvNotify (title message : string) (icon : notify_icon) (time : N)
| EvAbortRequested
| EvWaitForAbort (secs : nat)
| EvExists (path : string)
| EvMakedirs (path : string)
| EvRemove (path : string)
| EvWriteFile (path content : string)
| EvJsonDump (path : string) (doc : json)
| EvChmod (path : string) (mode : nat).

(** [subprocess.CompletedProcess]. *)
Record completed := mk_completed {
  returncode : Z;
  stdout : string;
  stderr : string
}.

(** The outside world.  Each answer may depend on the trace so far. *)
Record Env := mk_env {
  env_run : list event -> list string -> option nat -> completed + exn;
  env_shell : list event -> string -> completed + exn;
  env_popen : list event -> list string -> string -> nat + exn;
  env_poll : list event -> nat -> option Z;
  env_terminate : list event -> nat -> option exn;
  env_wait : list event -> nat -> nat -> Z + exn;
  env_notify : list event -> option exn;
  env_abort_requested : list event -> bool;
  env_wait_for_abort : list event -> nat -> bool;
  env_exists : list event -> string -> bool;
  env_makedirs : list event -> string -> option exn;
  env_remove : list event -> string -> option exn;
  env_write : list event -> string -> string -> option exn;
  env_chmod : list event -> string -> nat -> option exn;
  env_json_dump : list event -> string -> json -> option exn;
  env_strftime : list event -> string -> string;
  (** [json.loads]: the decoded value, or the message of the
      [JSONDecodeError] it raises on malformed input. *)
  json_loads : string -> json + string
}.

Definition JSONDecodeError (msg : string) : exn :=
  mk_exn "JSONDecodeError" KException msg.

Definition AttributeError (msg : string) : exn :=
  mk_exn "AttributeError" KException msg.

Definition KeyError (key : string) : exn :=
  mk_exn "KeyError" KException ("'" +:+ key +:+ "'").

(** ** Primitive effects

    The objects below differ in their fields but all carry the trace. *)

Class Traced (S : Type) := {
  get_trace : S -> list event;
  set_trace : list event -> S -> S;
  get_set_trace : forall tr s, get_trace (set_trace tr s) = tr
}.

Section Primitives.
Context {S : Type} `{Traced S}.
Variable E : Env.

Definition emit (ev : event) (s : S) : S := set_trace (get_trace s ++ [ev]) s.

Definition get : M S S := fun s => (Ret s, s).

Definition modify (f : S -> S) : M S unit := fun s => (Ret tt, f s).

(** An effect that cannot fail. *)
Definition perform {A} (ev : event) (answer : list event -> A) : M S A :=
  fun s => (Ret (answer (get_trace s)), emit ev s).

(** An effect that returns nothing or raises. *)
Definition attempt (ev : event) (answer : list event -> option exn) : M S unit :=
  fun s =>
    match answer (get_trace s) with
    | None => (Ret tt, emit ev s)
    | Some e => (Raise e, emit ev s)
    end.

(** An effect that returns a value or raises. *)
Definition call {A} (ev : event) (answer : list event -> A + exn) : M S A :=
  fun s =>
    match answer (get_trace s) with
    | inl a => (Ret a, emit ev s)
    | inr e => (Raise e, emit ev s)
    end.

(** [xbmc.log(msg, level)]. *)
Definition xbmc_log (msg : string) (lvl : log_level) : M S unit :=
  perform (EvLog lvl msg) (fun _ => tt).

(** [time.sleep(secs)]. *)
Definition sleep (secs : nat) : M S unit :=
  perform (EvSleep secs) (fun _ => tt).

(** [subprocess.run(argv, capture_output=True, text=True, timeout=t)]. *)
Definition subprocess_run (argv : list string) (timeout : option nat) : M S completed :=
  call (EvRun argv timeout) (fun tr => env_run E tr argv timeout).

(** [subprocess.run(cmd, shell=True, capture_output=True, text=True)]. *)
Definition subprocess_shell (cmd : string) : M S completed :=
  call (EvShell cmd) (fun tr => env_shell E tr cmd).

(** [subprocess.Popen(argv, stdout=PIPE, stderr=PIPE,
    env=dict(os.environ, HOME=home))]. *)
Definition Popen (argv : list string) (home : string) : M S nat :=
  call (EvPopen argv home) (fun tr => env_popen E tr argv home).

(** [p.poll()]: [None] while the child is alive, else its return code. *)
Definition poll (pid : nat) : M S (option Z) :=
  perform (EvPoll pid) (fun tr => env_poll E tr pid).

(** [p.terminate()]. *)
Definition terminate (pid : nat) : M S unit :=
  attempt (EvTerminate pid) (fun tr => env_terminate E tr pid).

(** [p.wait(timeout=t)]: the return code, or [TimeoutExpired]. *)
Definition wait (pid : nat) (timeout : nat) : M S Z :=
  call (EvWait pid timeout) (fun tr => env_wait E tr pid timeout).

(** [xbmcgui.Dialog().notification(title, message, icon, time)]. *)
Definition notification (title message : string) (icon : notify_icon) (time : N)
  : M S unit :=
  attempt (EvNotify title message icon time) (env_notify E).

(** [monitor.abortRequested()] and [monitor.waitForAbort(secs)]. *)
Definition abortRequested : M S bool :=
  perform EvAbortRequested (env_abort_requested E).

Definition waitForAbort (secs : nat) : M S bool :=
  perform (EvWaitForAbort secs) (fun tr => env_wait_for_abort E tr secs).

(** [os.path.exists], [os.makedirs], [os.remove], [os.chmod]. *)
Definition path_exists (path : string) : M S bool :=
  perform (EvExists path) (fun tr => env_exists E tr path).

Definition makedirs (path : string) : M S unit :=
  attempt (EvMakedirs path) (fun tr => env_makedirs E tr path).

Definition remove (path : string) : M S unit :=
  attempt (EvRemove path) (fun tr => env_remove E tr path).

Definition chmod (path : string) (mode : nat) : M S unit :=
  attempt (EvChmod path mode) (fun tr => env_chmod E tr path mode).

(** [with open(path, 'w') as f: f.write(content)]. *)
Definition write_file (path content : string) : M S unit :=
  attempt (EvWriteFile path content) (fun tr => env_write E tr path content).

(** [with open(path, 'w') as f: json.dump(doc, f, indent=2)]: the file
    receives the document [doc]. *)
Definition json_dump_file (path : string) (doc : json) : M S unit :=
  attempt (EvJsonDump path doc) (fun tr => env_json_dump E tr path doc).

(** [time.strftime(fmt)]: reads the clock, changes nothing. *)
Definition strftime (fmt : string) : M S string :=
  fun s => (Ret (env_strftime E (get_trace s) fmt), s).

(** [json.loads(text)]. *)
Definition loads (text : string) : M S json :=
  match json_loads E text with
  | inl v => ret v
  | inr msg => raise (JSONDecodeError msg)
  end.

(** [v.get(key)]: only a dict has the method; a missing key gives [None]. *)
Definition json_get (v : json) (key : string) : M S json :=
  match v with
  | JDict d => ret (default JNone (d !! key))
  | _ => raise (AttributeError
           ("'" +:+ json_type_name v +:+ "' object has no attribute 'get'"))
  end.

End Primitives.

(** ** [archive/libreelec-tailscale-addon/source/default.py] *)

Module TailscaleService.

(** The fields of a [TailscaleService] object, the settings store of the
    add-on ([self.addon]) and the trace. *)
Record service := mk_service {
  addon_path : string;
  addon_data : string;
  tailscaled_bin : string;
  tailscale_bin : string;
  state_dir : string;
  settings : gmap string string;
  tailscaled_process : option nat;
  trace : list event
}.

Definition with_trace (tr : list event) (s : service) : service :=
  mk_service (addon_path s) (addon_data s) (tailscaled_bin s) (tailscale_bin s)
    (state_dir s) (settings s) (tailscaled_process s) tr.

#[global] Instance service_traced : Traced service :=
  Build_Traced service trace with_trace (fun _ _ => eq_refl).

Definition set_tailscaled_process (p : option nat) (s : service) : service :=
  mk_service (addon_path s) (addon_data s) (tailscaled_bin s) (tailscale_bin s)
    (state_dir s) (settings s) p (trace s).

(** [self.addon.getSetting(id)]: the stored string, empty when unset. *)
Definition getSetting (id : string) : M service string :=
  fun s => (Ret (default "" (settings s !! id)), s).

Section Methods.
Variable E : Env.

(** [__init__], given what [xbmc.translatePath] returned for the add-on's
    path and profile. *)
Definition init (path profile : string) : M service unit :=
  modify (fun s => mk_service path profile (tailscaled_bin s) (tailscale_bin s)
                     (state_dir s) (settings s) (tailscaled_process s) (trace s)) ;;
  e1 <- path_exists E profile ;;
  (if negb e1 then makedirs E profile else ret tt) ;;
  modify (fun s => mk_service (addon_path s) (addon_data s)
                     (Py.path_join path ["bin"; "tailscaled"])
                     (Py.path_join path ["bin"; "tailscale"])
                     (Py.path_join profile ["tailscale-state"])
                     (settings s) (tailscaled_process s) (trace s)) ;;
  s <- get ;;
  e2 <- path_exists E (state_dir s) ;;
  (if negb e2 then makedirs E (state_dir s) else ret tt) ;;
  modify (set_tailscaled_process None) ;;
  xbmc_log "[Tailscale] Service initialized" LOGINFO.

Definition is_tailscaled_running : M service bool :=
  try_except
    (result <- subprocess_run E ["pgrep"; "-f"; "tailscaled"] None ;;
     ret (returncode result =? 0)%Z)
    (ret false).

(** The argument list built by [start_tailscaled].  In Python [+] binds
    tighter than [or], so the last element is
    [('--port=' + port) or '41641']. *)
Definition tailscaled_cmd (s : service) (port : string) : list string :=
  [ tailscaled_bin s;
    "--state=" +:+ Py.path_join (state_dir s) ["tailscaled.state"];
    "--socket=" +:+ Py.path_join (state_dir s) ["tailscaled.sock"];
    Py.or_ ("--port=" +:+ port) "41641" ].

Definition start_tailscaled : M service bool :=
  try_except_Exception
    (running <- is_tailscaled_running ;;
     if running then
       xbmc_log "[Tailscale] tailscaled already running" LOGINFO ;;
       ret true
     else
       s <- get ;;
       port <- getSetting "daemon_port" ;;
       let cmd := tailscaled_cmd s port in
       xbmc_log ("[Tailscale] Starting tailscaled: " +:+ Py.join " " cmd) LOGDEBUG ;;
       p <- Popen E cmd (addon_data s) ;;
       modify (set_tailscaled_process (Some p)) ;;
       sleep 2 ;;
       rc <- poll E p ;;
       match rc with
       | None =>
           xbmc_log "[Tailscale] tailscaled started successfully" LOGINFO ;;
           ret true
       | Some _ =>
           xbmc_log "[Tailscale] tailscaled failed to start" LOGERROR ;;
           ret false
       end)
    (fun e =>
       xbmc_log ("[Tailscale] Error starting tailscaled: " +:+ exn_str e) LOGERROR ;;
       ret false).

(** The status probe's command line. *)
Definition status_cmd (s : service) : list string :=
  [ tailscale_bin s;
    "--socket=" +:+ Py.path_join (state_dir s) ["tailscaled.sock"];
    "status"; "--json" ].

(** Returns the decoded status, or [JNone] for Python's [None]. *)
Definition get_tailscale_status : M service json :=
  try_except_Exception
    (s <- get ;;
     result <- subprocess_run E (status_cmd s) (Some 10) ;;
     if (returncode result =? 0)%Z then loads E (stdout result)
     else ret JNone)
    (fun e =>
       xbmc_log ("[Tailscale] Error getting status: " +:+ exn_str e) LOGDEBUG ;;
       ret JNone).

Definition show_notification (title message : string) (time : N) : M service unit :=
  try_except (notification E title message NOTIFICATION_INFO time) (ret tt).

Definition show_auth_notification : M service unit :=
  show_notification "Tailscale Authentication Required"
    "Please run 'tailscale up' manually or check addon settings" 10000%N.

(** The argument list built by [login], before it is run. *)
Definition login_cmd (s : service) (auth_key hostname : string)
    (accept_routes accept_dns : bool) : list string :=
  [ tailscale_bin s;
    "--socket=" +:+ Py.path_join (state_dir s) ["tailscaled.sock"];
    "up" ]
  ++ (if Py.truthy auth_key && Py.truthy (Py.strip auth_key)
      then ["--authkey"; Py.strip auth_key] else [])
  ++ (if accept_routes then ["--accept-routes"] else [])
  ++ (if accept_dns then ["--accept-dns"] else [])
  ++ (if Py.truthy hostname then ["--hostname"; hostname] else []).

(** The command as [login] writes it to the log:
    [' '.join([c for c in cmd if not c.startswith('tskey-')])]. *)
Definition logged_cmd (cmd : list string) : string :=
  Py.join " " (List.filter (fun c => negb (Py.startswith c "tskey-")) cmd).

Definition login : M service bool :=
  try_except_Exception
    (s <- get ;;
     auth_key <- getSetting "auth_key" ;;
     (if Py.truthy auth_key && Py.truthy (Py.strip auth_key)
      then xbmc_log "[Tailscale] Using auth key for authentication" LOGINFO
      else ret tt) ;;
     accept_routes <- getSetting "accept_routes" ;;
     accept_dns <- getSetting "accept_dns" ;;
     hostname <- getSetting "hostname" ;;
     let cmd := login_cmd s auth_key hostname
                  (String.eqb accept_routes "true") (String.eqb accept_dns "true") in
     xbmc_log ("[Tailscale] Logging in with command: " +:+ logged_cmd cmd) LOGDEBUG ;;
     result <- subprocess_run E cmd (Some 60) ;;
     if (returncode result =? 0)%Z then
       xbmc_log "[Tailscale] Login successful" LOGINFO ;;
       show_notification "Tailscale" "Connected successfully" 5000%N ;;
       ret true
     else
       xbmc_log ("[Tailscale] Login failed: " +:+ stderr result) LOGERROR ;;
       (if Py.contains (stderr result) "visit the admin console"
        then show_auth_notification else ret tt) ;;
       ret false)
    (fun e =>
       xbmc_log ("[Tailscale] Error during login: " +:+ exn_str e) LOGERROR ;;
       ret false).

Definition authenticate_if_needed : M service unit :=
  status <- get_tailscale_status ;;
  if negb (json_truthy status) then
    xbmc_log "[Tailscale] Cannot get status, daemon may not be running" LOGWARNING
  else
    backend <- json_get status "BackendState" ;;
    if json_eq_str backend "NeedsLogin" then
      auto_login <- getSetting "auto_login" ;;
      if String.eqb auto_login "true" then
        login ;; ret tt
      else
        xbmc_log "[Tailscale] Authentication needed but auto_login disabled" LOGINFO ;;
        show_auth_notification
    else ret tt.

Definition stop_tailscale : M service unit :=
  try_except
    (s <- get ;;
     match tailscaled_process s with
     | None => ret tt
     | Some p =>
         rc <- poll E p ;;
         match rc with
         | None =>
             terminate E p ;;
             wait E p 10 ;;
             xbmc_log "[Tailscale] tailscaled stopped" LOGINFO
         | Some _ => ret tt
         end
     end)
    (ret tt).

(** One pass through the body of the [while] loop of [run]; the result
    says whether the body ended in [break]. *)
Definition run_tick : M service bool :=
  aborted <- waitForAbort E 30 ;;
  if aborted then ret true
  else
    running <- is_tailscaled_running ;;
    (if negb running then
       xbmc_log "[Tailscale] Daemon died, restarting" LOGWARNING ;;
       start_tailscaled ;;
       sleep 3 ;;
       authenticate_if_needed
     else ret tt) ;;
    ret false.

(** [while not self.monitor.abortRequested(): ...], at most [fuel] passes. *)
Fixpoint run_loop (fuel : nat) : M service unit :=
  match fuel with
  | O => fun s => (Unfinished, s)
  | Datatypes.S n =>
      abort <- abortRequested E ;;
      if abort then ret tt
      else
        broke <- run_tick ;;
        if broke then ret tt else run_loop n
  end.

Definition run (fuel : nat) : M service unit :=
  xbmc_log "[Tailscale] Service starting" LOGINFO ;;
  started <- start_tailscaled ;;
  if negb started then
    xbmc_log "[Tailscale] Failed to start daemon, exiting" LOGERROR
  else
    sleep 3 ;;
    authenticate_if_needed ;;
    run_loop fuel ;;
    stop_tailscale ;;
    xbmc_log "[Tailscale] Service stopped" LOGINFO.

(** [Monitor.onSettingsChanged]. *)
Definition onSettingsChanged : M service unit :=
  xbmc_log "[Tailscale] Settings changed, restarting service" LOGINFO ;;
  stop_tailscale ;;
  sleep 2 ;;
  start_tailscaled ;;
  sleep 3 ;;
  authenticate_if_needed.

End Methods.

End TailscaleService.

(** ** [configurations/addons/service.tailscale-config/service.py] *)

Module TailscaleConfigService.

Record service := mk_service {
  settings : gmap string string;
  trace : list event
}.

Definition with_trace (tr : list event) (s : service) : service :=
  mk_service (settings s) tr.

#[global] Instance service_traced : Traced service :=
  Build_Traced service trace with_trace (fun _ _ => eq_refl).

Definition config_dir : string := "/storage/.config/tailscale".
Definition authkey_file : string := Py.path_join config_dir ["authkey"].

(** [self.addon.getSettingString(id)] and [self.addon.getSettingBool(id)];
    the store keeps a Boolean as ["true"] or ["false"]. *)
Definition getSettingString (id : string) : M service string :=
  fun s => (Ret (default "" (settings s !! id)), s).

Definition getSettingBool (id : string) : M service bool :=
  fun s => (Ret (String.eqb (default "" (settings s !! id)) "true"), s).

Section Methods.
Variable E : Env.

Definition init : M service unit := makedirs E config_dir.

Definition log (message : string) : M service unit :=
  xbmc_log ("[Tailscale Config] " +:+ message) LOGINFO.

(** Returns [(success, stdout, stderr)]. *)
Definition run_command (cmd : string) : M service (bool * string * string) :=
  try_except_Exception
    (result <- subprocess_shell E cmd ;;
     ret ((returncode result =? 0)%Z, Py.strip (stdout result), Py.strip (stderr result)))
    (fun e =>
       log ("Command failed: " +:+ cmd +:+ " - Error: " +:+ exn_str e) ;;
       ret (false, "", exn_str e)).

(** The parts of the [tailscale up] command line. *)
Definition cmd_parts (authkey exit_node hostname advertise_routes : string)
    (accept_routes ssh_enabled : bool) : list string :=
  [ "/storage/.kodi/addons/service.tailscale/bin/tailscale"; "up" ]
  ++ [ "--authkey=" +:+ authkey ]
  ++ (if accept_routes then ["--accept-routes"] else [])
  ++ (if Py.truthy exit_node then ["--exit-node=" +:+ exit_node] else [])
  ++ (if Py.truthy hostname then ["--hostname=" +:+ hostname] else [])
  ++ (if Py.truthy advertise_routes
      then ["--advertise-routes=" +:+ advertise_routes] else [])
  ++ (if ssh_enabled then ["--ssh"] else []).

Definition apply_settings : M service unit :=
  enabled <- getSettingBool "enabled" ;;
  authkey <- getSettingString "authkey" ;;
  let authkey := Py.strip authkey in
  accept_routes <- getSettingBool "accept_routes" ;;
  exit_node <- getSettingString "exit_node" ;;
  let exit_node := Py.strip exit_node in
  hostname <- getSettingString "hostname" ;;
  let hostname := Py.strip hostname in
  advertise_routes <- getSettingString "advertise_routes" ;;
  let advertise_routes := Py.strip advertise_routes in
  ssh_enabled <- getSettingBool "ssh_enabled" ;;
  log ("Applying settings - Enabled: " +:+ Py.str_bool enabled
       +:+ ", Has authkey: " +:+ Py.str_bool (Py.truthy authkey)) ;;
  if negb enabled || negb (Py.truthy authkey) then
    log "Disabling Tailscale service" ;;
    run_command "systemctl stop tailscale" ;;
    run_command "systemctl disable tailscale" ;;
    present <- path_exists E authkey_file ;;
    if present then remove E authkey_file else ret tt
  else
    write_file E authkey_file authkey ;;
    chmod E authkey_file 384 ;;
    let parts := cmd_parts authkey exit_node hostname advertise_routes
                   accept_routes ssh_enabled in
    log "Enabling Tailscale service" ;;
    run_command "systemctl enable tailscale" ;;
    run_command "systemctl start tailscale" ;;
    sleep 2 ;;
    let cmd := Py.join " " parts in
    log ("Running: " +:+ cmd) ;;
    r <- run_command cmd ;;
    let '(success, _, stderr) := r in
    if success then
      log "Tailscale configured successfully" ;;
      notification E "Tailscale" "Configuration applied successfully"
        NOTIFICATION_INFO 5000%N
    else
      log ("Tailscale configuration failed: " +:+ stderr) ;;
      notification E "Tailscale"
        ("Configuration failed: " +:+ Py.take 50 stderr +:+ "...")
        NOTIFICATION_ERROR 8000%N.

(** The service loop, at most [fuel] passes. *)
Fixpoint run_loop (fuel : nat) : M service unit :=
  match fuel with
  | O => fun s => (Unfinished, s)
  | Datatypes.S n =>
      abort <- abortRequested E ;;
      if abort then ret tt
      else
        woken <- waitForAbort E 10 ;;
        if woken then ret tt else run_loop n
  end.

Definition run (fuel : nat) : M service unit :=
  log "Tailscale Configuration Service started" ;;
  apply_settings ;;
  run_loop fuel ;;
  log "Tailscale Configuration Service stopped".

End Methods.

End TailscaleConfigService.

(** ** [archive/old-configs/addons/service.tailscale-config/restart.py]

    The script behind the add-on's restart action; it calls
    [TailscaleConfigService.apply_settings]. *)

Module Restart.
Import TailscaleConfigService.

Section Methods.
Variable E : Env.

(** The script's own [run_command]: as the service's, without the log
    line in the handler. *)
Definition run_command (cmd : string) : M service (bool * string * string) :=
  try_except_Exception
    (result <- subprocess_shell E cmd ;;
     ret ((returncode result =? 0)%Z, Py.strip (stdout result), Py.strip (stderr result)))
    (fun e => ret (false, "", exn_str e)).

(** [main]; [TailscaleConfigService()] runs the service's [__init__]. *)
Definition main : M service unit :=
  run_command "systemctl restart tailscale" ;;
  sleep 3 ;;
  init E ;;
  apply_settings E.

End Methods.

End Restart.

(** ** [setup-wizard/source/default.py]: saving the wizard's configuration *)

Module RavenSetupWizard.

(** [self.config] is a dict from field names to strings. *)
Record wizard := mk_wizard {
  config : gmap string string;
  trace : list event
}.

Definition with_trace (tr : list event) (w : wizard) : wizard :=
  mk_wizard (config w) tr.

#[global] Instance wizard_traced : Traced wizard :=
  Build_Traced wizard trace with_trace (fun _ _ => eq_refl).

Definition set_config (c : gmap string string) (w : wizard) : wizard :=
  mk_wizard c (trace w).

(** The dict [__init__] stores in [self.config], given what
    [self.get_hostname()] returned. *)
Definition initial_config (hostname : string) : gmap string string :=
  <["jellyfin_server" := ""]> (
  <["jellyfin_username" := ""]> (
  <["jellyfin_password" := ""]> (
  <["tailscale_authkey" := ""]> (
  <["device_hostname" := hostname]> ∅)))).

(** [self.config[key]]: a missing key raises [KeyError]. *)
Definition config_item (key : string) : M wizard string :=
  fun w =>
    match config w !! key with
    | Some v => (Ret v, w)
    | None => (Raise (KeyError key), w)
    end.

Definition config_file : string := "/storage/.config/raven-config.json".

(** The dict literal [safe_config] of [save_config], given the three
    fields it reads and the formatted date. *)
Definition safe_config (server username hostname date : string) : gmap string json :=
  <["jellyfin_server" := JStr server]> (
  <["jellyfin_username" := JStr username]> (
  <["device_hostname" := JStr hostname]> (
  <["setup_completed" := JBool true]> (
  <["setup_date" := JStr date]> ∅)))).

Section Methods.
Variable E : Env.

Definition save_config : M wizard bool :=
  try_except_Exception
    (server <- config_item "jellyfin_server" ;;
     username <- config_item "jellyfin_username" ;;
     hostname <- config_item "device_hostname" ;;
     date <- strftime E "%Y-%m-%d %H:%M:%S" ;;
     json_dump_file E config_file (JDict (safe_config server username hostname date)) ;;
     ret true)
    (fun e =>
       xbmc_log ("Error saving config: " +:+ exn_str e) LOGERROR ;;
       ret false).

(** [mark_setup_complete]: writes the date to the marker file. *)
Definition mark_setup_complete : M wizard bool :=
  try_except
    (date <- strftime E "%Y-%m-%d %H:%M:%S" ;;
     write_file E "/storage/.config/raven-setup-complete" date ;;
     ret true)
    (ret false).

End Methods.

(** [get_hostname], given how [socket.gethostname()] and the reading of
    [/proc/cpuinfo] end; the second is looked at only when the first gives
    no usable name. *)
Definition get_hostname (gethostname cpuinfo : string + exn) : string :=
  let named :=
    match gethostname with
    | inl hostname =>
        if Py.truthy hostname && negb (String.eqb hostname "localhost")
        then Some hostname else None
    | inr _ => None
    end in
  match named with
  | Some hostname => hostname
  | None =>
      match cpuinfo with
      | inl text =>
          if Py.contains text "Raspberry Pi 4" then "LibreELEC-Pi4"
          else if Py.contains text "Raspberry Pi 5" then "LibreELEC-Pi5"
          else "LibreELEC-Media"
      | inr _ => "LibreELEC-Raven"
      end
  end.

(** [self.config[key] = value]. *)
Definition set_item (key value : string) : M wizard unit :=
  modify (fun w => set_config (<[key := value]> (config w)) w).

(** *** Kodi's dialogs

    [xbmcgui.Dialog] is implemented by Kodi, not by this repository.  Its
    methods take their arguments as CPython's
    [PyArg_ParseTupleAndKeywords] does, from the list of parameter names
    the binding declares:
    [Dialog().input(heading, defaultt, type, option, autoclose)], with
    [heading] required, and [Dialog().ok(heading, message)].  There is no
    [message] parameter in [input]: a second positional argument is the
    default text. *)

(** The values the wizard passes: strings and integer constants. *)
Inductive value :=
  | VStr (s : string)
  | VInt (n : Z).

Definition TypeError (msg : string) : exn :=
  mk_exn "TypeError" KException msg.

(** How a parameter is parsed: as an object that the method then reads as
    a string, or as a C int. *)
Inductive kind :=
  | KString
  | KInt.

Record signature := mk_signature {
  sig_params : list (string * kind);
  sig_required : nat
}.

Definition Dialog_input : signature :=
  mk_signature
    [("heading", KString); ("defaultt", KString); ("type", KInt);
     ("option", KInt); ("autoclose", KInt)] 1.


(** [xbmcgui.ALPHANUM_HIDE_INPUT]. *)
Definition ALPHANUM_HIDE_INPUT : Z := 2.

Fixpoint lookup_kw (name : string) (kwargs : list (string * value)) : option value :=
  match kwargs with
  | [] => None
  | (key, v) :: rest => if String.eqb key name then Some v else lookup_kw name rest
  end.

(** The parsing loop, driven by the parameter list: the parameter at
    position [pos] takes the next positional argument if one is left and
    else the keyword argument of its name; an int parameter refuses a
    string; a required parameter that got nothing is an error. *)
Fixpoint parse_params (params : list (string * kind)) (pos required : nat)
    (args : list value) (kwargs : list (string * value))
    : exn + list (string * value) :=
  match params with
  | [] => inr []
  | (name, k) :: rest =>
      let current :=
        match args with
        | v :: _ => Some v
        | [] => lookup_kw name kwargs
        end in
      match current with
      | Some v =>
          match k, v with
          | KInt, VStr _ =>
              inl (TypeError "'str' object cannot be interpreted as an integer")
          | _, _ =>
              match parse_params rest (S pos) required (tail args) kwargs with
              | inl e => inl e
              | inr bound => inr ((name, v) :: bound)
              end
          end
      | None =>
          if pos <? required
          then inl (TypeError ("function missing required argument '" +:+ name
                               +:+ "' (pos " +:+ pretty (S pos) +:+ ")"))
          else parse_params rest (S pos) required (tail args) kwargs
      end
  end.

(** The first parameter that was given by position and is also named by a
    keyword, with its position. *)
Fixpoint given_twice (params : list (string * kind)) (pos : nat)
    (args : list value) (kwargs : list (string * value)) : option (string * nat) :=
  match params, args with
  | (name, _) :: rest, _ :: args' =>
      match lookup_kw name kwargs with
      | Some _ => Some (name, S pos)
      | None => given_twice rest (S pos) args' kwargs
      end
  | _, _ => None
  end.

(** The first keyword that names no parameter. *)
Fixpoint invalid_keyword (params : list (string * kind))
    (kwargs : list (string * value)) : option string :=
  match kwargs with
  | [] => None
  | (key, _) :: rest =>
      if existsb (fun p => String.eqb (fst p) key) params
      then invalid_keyword params rest
      else Some key
  end.

(** The arguments of a call bound to the parameters, or the [TypeError]
    the call raises: too many arguments; an error of the parsing loop; an
    argument given by name and by position; a keyword that names no
    parameter; an argument that is read as a string and is not one. *)
Definition bind_arguments (sig : signature)
    (args : list value) (kwargs : list (string * value))
    : exn + list (string * value) :=
  let params := sig_params sig in
  if length params <? length args + length kwargs
  then inl (TypeError ("function takes at most " +:+ pretty (length params) +:+ " "
                       +:+ (if length args =? 0 then "keyword " else "")
                       +:+ "argument" +:+ (if length params =? 1 then "" else "s")
                       +:+ " (" +:+ pretty (length args + length kwargs) +:+ " given)"))
  else
    match parse_params params 0 (sig_required sig) args kwargs with
    | inl e => inl e
    | inr bound =>
        match given_twice params 0 args kwargs with
        | Some (name, pos) =>
            inl (TypeError ("argument for function given by name ('" +:+ name
                            +:+ "') and position (" +:+ pretty pos +:+ ")"))
        | None =>
            match invalid_keyword params kwargs with
            | Some key =>
                inl (TypeError ("'" +:+ key
                                +:+ "' is an invalid keyword argument for this function"))
            | None =>
                match List.find (fun b => match snd b with
                                          | VInt _ => existsb
                                                        (fun p => String.eqb (fst p) (fst b)
                                                                  && match snd p with
                                                                     | KString => true
                                                                     | KInt => false
                                                                     end) params
                                          | VStr _ => false
                                          end) bound with
                | Some (name, _) =>
                    inl (TypeError ("argument '" +:+ name +:+ "' must be unicode or str"))
                | None => inr bound
                end
            end
        end
    end.

(** A call of a dialog method: it raises when the arguments do not bind
    and hands the bound arguments on when they do. *)
Definition invoke (sig : signature) (args : list value) (kwargs : list (string * value))
    : M wizard (list (string * value)) :=
  fun w =>
    match bind_arguments sig args kwargs with
    | inl e => (Raise e, w)
    | inr bound => (Ret bound, w)
    end.



Section Dialogs.
(** What the keyboard dialog returns for the arguments it was opened
    with: the text the user typed, empty when the dialog was cancelled or
    left blank. *)
Variable answer : list (string * value) -> string.

(** [dialog.input], called with positional and keyword arguments. *)
Definition dialog_input (args : list value) (kwargs : list (string * value))
    : M wizard string :=
  bound <- invoke Dialog_input args kwargs ;;
  ret (answer bound).


Definition get_jellyfin_config : M wizard bool :=
  server <- dialog_input
              [VStr "Jellyfin Server Address";
               VStr "Enter your Jellyfin server URL (e.g., http://192.168.1.100:8096)"]
              [("defaultt", VStr "")] ;;
  if negb (Py.truthy server) then ret false
  else
    let server :=
      if negb (Py.startswith server "http://" || Py.startswith server "https://")
      then "http://" +:+ server else server in
    set_item "jellyfin_server" server ;;
    username <- dialog_input
                  [VStr "Jellyfin Username"; VStr "Enter your Jellyfin username"]
                  [("defaultt", VStr "")] ;;
    if negb (Py.truthy username) then ret false
    else
      set_item "jellyfin_username" username ;;
      password <- dialog_input
                    [VStr "Jellyfin Password"; VStr "Enter your Jellyfin password"]
                    [("defaultt", VStr ""); ("option", VInt ALPHANUM_HIDE_INPUT)] ;;
      if negb (Py.truthy password) then ret false
      else
        set_item "jellyfin_password" password ;;
        ret true.


End Dialogs.

End RavenSetupWizard.

(** ** Vocabulary of the statements *)

(** The events a call adds to the trace are weighed: [weight w evs] counts
    the events of [evs] with their weights [w]. *)
Definition weight (w : event -> nat) (evs : list event) : nat :=
  fold_right (fun ev n => w ev + n) 0 evs.

(** [costs w n c]: from every state, [c] only appends to the trace, and
    what it appends weighs at most [n]. *)
Definition costs {S A} `{Traced S} (w : event -> nat) (n : nat) (c : M S A) : Prop :=
  forall s, exists evs,
    get_trace (snd (c s)) = get_trace s ++ evs /\ weight w evs <= n.

(** A spawn of a child process. *)
Definition is_spawn (ev : event) : nat :=
  match ev with EvPopen _ _ => 1 | _ => 0 end.

(** A forced kill. *)
Definition is_kill (ev : event) : nat :=
  match ev with EvKill _ => 1 | _ => 0 end.

(** A run of the control client's [up] subcommand, the login command. *)
Definition is_login (ev : event) : nat :=
  match ev with
  | EvRun (_ :: _ :: sub :: _) _ => if String.eqb sub "up" then 1 else 0
  | _ => 0
  end.

(** A write of a JSON document to a file. *)
Definition is_json_dump (ev : event) : nat :=
  match ev with EvJsonDump _ _ => 1 | _ => 0 end.


(** The liveness probe's command line. *)
Definition pgrep_cmd : list string := ["pgrep"; "-f"; "tailscaled"].

(** What [is_tailscaled_running] makes of the probe's outcome. *)
Definition reports_running (r : completed + exn) : bool :=
  match r with
  | inl c => (returncode c =? 0)%Z
  | inr _ => false
  end.


(** Anything but a question to Kodi's monitor. *)
Definition is_not_monitor (ev : event) : nat :=
  match ev with EvAbortRequested | EvWaitForAbort _ => 0 | _ => 1 end.

(** A write or a permission change on a file. *)
Definition is_file_write (ev : event) : nat :=
  match ev with EvWriteFile _ _ | EvChmod _ _ | EvJsonDump _ _ => 1 | _ => 0 end.

(** The commands handed to the shell, in order. *)
Definition shell_cmds (tr : list event) : list string :=
  omap (fun ev => match ev with EvShell cmd => Some cmd | _ => None end) tr.

(** The removals of files, in order. *)
Definition removals (tr : list event) : list string :=
  omap (fun ev => match ev with EvRemove path => Some path | _ => None end) tr.

(** The log lines of a trace. *)
Definition log_lines (tr : list event) : list string :=
  omap (fun ev => match ev with EvLog _ msg => Some msg | _ => None end) tr.

(** ** Sample environments and states *)

Module Scenario.

Definition dq : string := String (ascii_of_nat 34) EmptyString.

(** The text [{"BackendState": "<state>"}]. *)
Definition status_json (state : string) : string :=
  "{" +:+ dq +:+ "BackendState" +:+ dq +:+ ": " +:+ dq +:+ state +:+ dq +:+ "}".

(** A decoder that knows the two status documents used below and rejects
    every other text the way [json.loads] rejects ["{not valid"]. *)
Definition sample_loads (text : string) : json + string :=
  if String.eqb text (status_json "NeedsLogin")
  then inl (JDict {[ "BackendState" := JStr "NeedsLogin" ]})
  else if String.eqb text (status_json "Running")
  then inl (JDict {[ "BackendState" := JStr "Running" ]})
  else inr "Expecting property name enclosed in double quotes: line 1 column 2 (char 1)".

Definition ok (out : string) : completed := mk_completed 0 out "".
Definition failed (err : string) : completed := mk_completed 1 "" err.

Definition TimeoutExpired (msg : string) : exn :=
  mk_exn "TimeoutExpired" KException msg.

(** The third word of a command line, its subcommand. *)
Definition subcommand (argv : list string) : string := nth 2 argv "".

(** A world described by four answers: whether [pgrep] finds the daemon,
    what the status probe prints, how [tailscale up] ends, and whether a
    spawned child is still alive when polled.  Graceful stops succeed at
    once and Kodi never asks to abort. *)
Definition world (pgrep_finds : list event -> bool) (status : completed)
    (up : completed) (alive : list event -> bool) : Env :=
  {| env_run tr argv _ :=
       if String.eqb (subcommand argv) "tailscaled"
       then inl (if pgrep_finds tr then ok "4242" else failed "")
       else if String.eqb (subcommand argv) "status" then inl status
       else inl up;
     env_shell _ _ := inl (ok "");
     env_popen tr _ _ := inl (Datatypes.S (weight is_spawn tr));
     env_poll tr _ := if alive tr then None else Some 1%Z;
     env_terminate _ _ := None;
     env_wait _ _ _ := inl 0%Z;
     env_notify _ := None;
     env_abort_requested _ := false;
     env_wait_for_abort _ _ := false;
     env_exists _ _ := true;
     env_makedirs _ _ := None;
     env_remove _ _ := None;
     env_write _ _ _ := None;
     env_chmod _ _ _ := None;
     env_json_dump _ _ _ := None;
     env_strftime _ _ := "2025-06-01 12:00:00";
     json_loads := sample_loads |}.


(** The same world, except that waiting for a child to exit times out. *)
Definition with_wait_timeout (E : Env) : Env :=
  {| env_run := env_run E; env_shell := env_shell E; env_popen := env_popen E;
     env_poll := env_poll E; env_terminate := env_terminate E;
     env_wait _ _ _ := inr (TimeoutExpired "timed out after 10 seconds");
     env_notify := env_notify E;
     env_abort_requested := env_abort_requested E;
     env_wait_for_abort := env_wait_for_abort E;
     env_exists := env_exists E; env_makedirs := env_makedirs E;
     env_remove := env_remove E; env_write := env_write E;
     env_chmod := env_chmod E; env_json_dump := env_json_dump E;
     env_strftime := env_strftime E; json_loads := json_loads E |}.

(** A [TailscaleService] object as [__init__] leaves it, with an empty
    trace and the given settings. *)
Definition service_of (settings : gmap string string) : TailscaleService.service :=
  let path := "/storage/.kodi/addons/service.tailscale" in
  let profile := "/storage/.kodi/userdata/addon_data/service.tailscale" in
  TailscaleService.mk_service path profile
    (Py.path_join path ["bin"; "tailscaled"])
    (Py.path_join path ["bin"; "tailscale"])
    (Py.path_join profile ["tailscale-state"])
    settings None [].

(** An object before [__init__] has run. *)
Definition blank (settings : gmap string string) : TailscaleService.service :=
  TailscaleService.mk_service "" "" "" "" "" settings None [].

(** The same object once it owns the child with handle [p]. *)
Definition owning (p : nat) (s : TailscaleService.service) : TailscaleService.service :=
  TailscaleService.set_tailscaled_process (Some p) s.

(** The daemon runs and reports that it needs a login; [tailscale up]
    succeeds. *)
Definition needs_login_world : Env :=
  world (fun _ => true) (ok (status_json "NeedsLogin")) (ok "") (fun _ => true).

(** The daemon runs and is logged in. *)
Definition running_world : Env :=
  world (fun _ => true) (ok (status_json "Running")) (ok "") (fun _ => true).

(** The status command exits with 0 but prints the text ["{not valid"]. *)
Definition garbled_world : Env :=
  world (fun _ => true) (ok "{not valid") (ok "") (fun _ => true).

(** [pgrep] never finds the daemon and no status can be had; a spawned
    child exits at once. *)
Definition dying_world : Env :=
  world (fun _ => false) (failed "") (ok "") (fun _ => false).


(** The owned child ignores the terminate signal: waiting for it times
    out and it stays alive. *)
Definition stuck_child_world : Env :=
  with_wait_timeout (world (fun _ => true) (failed "") (ok "") (fun _ => true)).

(** The same world, except for what [json.loads] returns. *)
Definition with_loads (loads : string -> json + string) (E : Env) : Env :=
  {| env_run := env_run E; env_shell := env_shell E; env_popen := env_popen E;
     env_poll := env_poll E; env_terminate := env_terminate E;
     env_wait := env_wait E; env_notify := env_notify E;
     env_abort_requested := env_abort_requested E;
     env_wait_for_abort := env_wait_for_abort E;
     env_exists := env_exists E; env_makedirs := env_makedirs E;
     env_remove := env_remove E; env_write := env_write E;
     env_chmod := env_chmod E; env_json_dump := env_json_dump E;
     env_strftime := env_strftime E; json_loads := loads |}.

(** The status command prints a JSON list. *)
Definition list_status_world : Env :=
  with_loads (fun _ => inl (JList [JInt 1]))
    (world (fun _ => true) (ok "[1]") (ok "") (fun _ => true)).

(** The status command prints an empty JSON object. *)
Definition empty_status_world : Env :=
  with_loads (fun _ => inl (JDict ∅))
    (world (fun _ => true) (ok "{}") (ok "") (fun _ => true)).

(** The daemon reports the backend state ["Stopped"]. *)
Definition stopped_world : Env :=
  with_loads (fun _ => inl (JDict {[ "BackendState" := JStr "Stopped" ]}))
    (world (fun _ => true) (ok "{...}") (ok "") (fun _ => true)).

(** The daemon needs a login and [tailscale up] is refused until the
    device is approved. *)
Definition approval_world : Env :=
  world (fun _ => true) (ok (status_json "NeedsLogin"))
    (failed "to approve this device, visit the admin console")
    (fun _ => true).

(** [pgrep] finds no daemon and the daemon's binary is missing, so that
    spawning it raises. *)
Definition missing_binary_world : Env :=
  let E := world (fun _ => false) (failed "") (ok "") (fun _ => true) in
  {| env_run := env_run E; env_shell := env_shell E;
     env_popen _ _ _ :=
       inr (mk_exn "FileNotFoundError" KException
              "[Errno 2] No such file or directory");
     env_poll := env_poll E; env_terminate := env_terminate E;
     env_wait := env_wait E; env_notify := env_notify E;
     env_abort_requested := env_abort_requested E;
     env_wait_for_abort := env_wait_for_abort E;
     env_exists := env_exists E; env_makedirs := env_makedirs E;
     env_remove := env_remove E; env_write := env_write E;
     env_chmod := env_chmod E; env_json_dump := env_json_dump E;
     env_strftime := env_strftime E; json_loads := json_loads E |}.

(** Everything works except that no file can be written. *)
Definition readonly_world : Env :=
  let E := world (fun _ => true) (failed "") (ok "") (fun _ => true) in
  {| env_run := env_run E; env_shell := env_shell E; env_popen := env_popen E;
     env_poll := env_poll E; env_terminate := env_terminate E;
     env_wait := env_wait E; env_notify := env_notify E;
     env_abort_requested := env_abort_requested E;
     env_wait_for_abort := env_wait_for_abort E;
     env_exists := env_exists E; env_makedirs := env_makedirs E;
     env_remove := env_remove E;
     env_write _ _ _ :=
       Some (mk_exn "PermissionError" KException "[Errno 13] Permission denied");
     env_chmod := env_chmod E; env_json_dump := env_json_dump E;
     env_strftime := env_strftime E; json_loads := json_loads E |}.

(** U+00A0, a non-breaking space. *)
Definition nbsp : string := String (ascii_of_nat 194) (String (ascii_of_nat 160) "").

End Scenario.

(** ** How the trace grows *)

Section Costs.
Context {S : Type} `{Traced S}.
Variable w : event -> nat.

Lemma weight_app (a b : list event) : weight w (a ++ b) = weight w a + weight w b.
Proof. induction a as [|ev a IH]; simpl; [reflexivity | rewrite IH; lia]. Qed.

Lemma trace_emit (ev : event) (s : S) : get_trace (emit ev s) = get_trace s ++ [ev].
Proof. unfold emit. apply get_set_trace. Qed.

Lemma costs_weaken {A} (c : M S A) n m : n <= m -> costs w n c -> costs w m c.
Proof. intros Hnm Hc s. destruct (Hc s) as (evs & -> & Hw). exists evs. split; [reflexivity | lia]. Qed.

Lemma costs_silent {A} (c : M S A) n : (forall s, snd (c s) = s) -> costs w n c.
Proof. intros Hc s. exists []. rewrite Hc, app_nil_r. split; [reflexivity | simpl; lia]. Qed.

Lemma costs_ret {A} (a : A) n : costs w n (ret a : M S A).
Proof. apply costs_silent. reflexivity. Qed.

Lemma costs_raise {A} (e : exn) n : costs w n (raise e : M S A).
Proof. apply costs_silent. reflexivity. Qed.

Lemma costs_get n : costs w n (get : M S S).
Proof. apply costs_silent. reflexivity. Qed.

Lemma costs_modify (f : S -> S) n :
  (forall s, get_trace (f s) = get_trace s) -> costs w n (modify f).
Proof. intros Hf s. exists []. simpl. rewrite Hf, app_nil_r. split; [reflexivity | lia]. Qed.

Lemma costs_bind {A B} (c : M S A) (k : A -> M S B) n m :
  costs w n c -> (forall a, costs w m (k a)) -> costs w (n + m) (bind c k).
Proof.
  intros Hc Hk s. unfold bind.
  destruct (Hc s) as (e1 & H1 & Hw1).
  destruct (c s) as [[a | e |] s1]; simpl in H1.
  - destruct (Hk a s1) as (e2 & H2 & Hw2). exists (e1 ++ e2).
    rewrite H2, H1, weight_app, app_assoc. split; [reflexivity | lia].
  - exists e1. simpl. split; [assumption | lia].
  - exists e1. simpl. split; [assumption | lia].
Qed.

(** When the first part adds exactly [n] and the rest adds nothing that
    weighs, the whole adds exactly [n]. *)
Lemma bind_weight_exact {A B} (c : M S A) (k : A -> M S B) (s : S) n :
  (exists evs, get_trace (snd (c s)) = get_trace s ++ evs /\ weight w evs = n) ->
  (forall a, costs w 0 (k a)) ->
  exists evs, get_trace (snd (bind c k s)) = get_trace s ++ evs /\ weight w evs = n.
Proof.
  intros (e1 & H1 & Hw1) Hk. unfold bind.
  destruct (c s) as [[a | e |] s1]; simpl in H1.
  - destruct (Hk a s1) as (e2 & H2 & Hw2). exists (e1 ++ e2).
    rewrite H2, H1, weight_app, app_assoc. split; [reflexivity | lia].
  - exists e1. simpl. split; assumption.
  - exists e1. simpl. split; assumption.
Qed.


Lemma costs_bind0 {A B} (c : M S A) (k : A -> M S B) :
  costs w 0 c -> (forall a, costs w 0 (k a)) -> costs w 0 (bind c k).
Proof. intros Hc Hk. apply (costs_bind c k 0 0); assumption. Qed.

Lemma costs_try_except {A} (body handler : M S A) n m :
  costs w n body -> costs w m handler -> costs w (n + m) (try_except body handler).
Proof.
  intros Hb Hh s. unfold try_except.
  destruct (Hb s) as (e1 & H1 & Hw1).
  destruct (body s) as [[a | e |] s1]; simpl in H1.
  - exists e1. simpl. split; [assumption | lia].
  - destruct (Hh s1) as (e2 & H2 & Hw2). exists (e1 ++ e2).
    rewrite H2, H1, weight_app, app_assoc. split; [reflexivity | lia].
  - exists e1. simpl. split; [assumption | lia].
Qed.

Lemma costs_try_except_Exception {A} (body : M S A) (handler : exn -> M S A) n m :
  costs w n body -> (forall e, costs w m (handler e)) ->
  costs w (n + m) (try_except_Exception body handler).
Proof.
  intros Hb Hh s. unfold try_except_Exception.
  destruct (Hb s) as (e1 & H1 & Hw1).
  destruct (body s) as [[a | e |] s1]; simpl in H1.
  - exists e1. simpl. split; [assumption | lia].
  - destruct (is_Exception e).
    + destruct (Hh e s1) as (e2 & H2 & Hw2). exists (e1 ++ e2).
      rewrite H2, H1, weight_app, app_assoc. split; [reflexivity | lia].
    + exists e1. simpl. split; [assumption | lia].
  - exists e1. simpl. split; [assumption | lia].
Qed.

Lemma costs_perform {A} (ev : event) (answer : list event -> A) n :
  w ev <= n -> costs w n (perform ev answer).
Proof.
  intros Hw s. exists [ev]. unfold perform. simpl.
  rewrite trace_emit. split; [reflexivity | lia].
Qed.

Lemma costs_attempt (ev : event) (answer : list event -> option exn) n :
  w ev <= n -> costs w n (attempt ev answer).
Proof.
  intros Hw s. exists [ev]. unfold attempt.
  destruct (answer (get_trace s)); simpl; rewrite trace_emit; (split; [reflexivity | lia]).
Qed.

Lemma costs_call {A} (ev : event) (answer : list event -> A + exn) n :
  w ev <= n -> costs w n (call ev answer).
Proof.
  intros Hw s. exists [ev]. unfold call.
  destruct (answer (get_trace s)); simpl; rewrite trace_emit; (split; [reflexivity | lia]).
Qed.

Lemma costs_loads (E : Env) (text : string) n : costs w n (loads E text : M S json).
Proof. unfold loads. destruct (json_loads E text); [apply costs_ret | apply costs_raise]. Qed.

Lemma costs_json_get (v : json) (key : string) n : costs w n (json_get v key : M S json).
Proof. destruct v; simpl; first [apply costs_ret | apply costs_raise]. Qed.

Lemma costs_strftime (E : Env) (fmt : string) n : costs w n (strftime E fmt : M S string).
Proof. apply costs_silent. reflexivity. Qed.

End Costs.

(** Decomposes a goal [costs w 0 c] along the structure of [c]. *)
Ltac quiet_step :=
  first
    [ apply costs_ret | apply costs_raise | apply costs_get
    | apply costs_loads | apply costs_json_get | apply costs_strftime
    | apply costs_bind0; [| intros ?]
    | apply (costs_try_except _ _ _ 0 0)
    | apply (costs_try_except_Exception _ _ _ 0 0); [| intros ?]
    | apply costs_perform; simpl; lia
    | apply costs_attempt; simpl; lia
    | apply costs_call; simpl; lia
    | apply costs_modify; intros ?; reflexivity
    | apply costs_silent; intros ?; reflexivity
    | progress cbv zeta
    | match goal with
      | |- costs _ _ (if ?b then _ else _) => destruct b
      | |- costs _ _ (match ?x with _ => _ end) => destruct x
      end ].

Ltac quiet := repeat quiet_step.

(** ** Facts about [TailscaleService] *)

Module TailscaleServiceFacts.
Import TailscaleService.

Create HintDb costs.

#[local] Arguments json_truthy : simpl never.

Ltac quiet_with_hints := repeat first [ solve [auto with costs nocore] | quiet_step ].

Section Facts.
Variable E : Env.

(** The status probe, spelled out by the outcome of its subprocess. *)
Lemma get_tailscale_status_eq (s : service) :
  let s1 := emit (EvRun (status_cmd s) (Some 10)) s in
  get_tailscale_status E s =
  match env_run E (trace s) (status_cmd s) (Some 10) with
  | inl result =>
      if (returncode result =? 0)%Z then
        match json_loads E (stdout result) with
        | inl v => (Ret v, s1)
        | inr msg =>
            (Ret JNone,
             emit (EvLog LOGDEBUG ("[Tailscale] Error getting status: " +:+ msg)) s1)
        end
      else (Ret JNone, s1)
  | inr e =>
      if is_Exception e
      then (Ret JNone,
            emit (EvLog LOGDEBUG ("[Tailscale] Error getting status: " +:+ exn_str e)) s1)
      else (Raise e, s1)
  end.
Proof.
  unfold get_tailscale_status, try_except_Exception, bind, get, subprocess_run, call, loads.
  simpl. destruct (env_run E (trace s) (status_cmd s) (Some 10)) as [result | e]; simpl.
  - destruct (returncode result =? 0)%Z; simpl; [| reflexivity].
    destruct (json_loads E (stdout result)); reflexivity.
  - destruct (is_Exception e); reflexivity.
Qed.

Lemma is_tailscaled_running_eq (s : service) :
  is_tailscaled_running E s =
  (Ret (reports_running (env_run E (trace s) pgrep_cmd None)),
   emit (EvRun pgrep_cmd None) s).
Proof.
  unfold is_tailscaled_running, try_except, bind, subprocess_run, call, pgrep_cmd.
  simpl. destruct (env_run E (trace s) _ None); reflexivity.
Qed.

Lemma is_tailscaled_running_costs w :
  w (EvRun pgrep_cmd None) = 0 -> costs w 0 (is_tailscaled_running E).
Proof.
  intros Hw s. rewrite is_tailscaled_running_eq. exists [EvRun pgrep_cmd None].
  simpl. split; [reflexivity | lia].
Qed.

Lemma show_notification_costs w title message time :
  w (EvNotify title message NOTIFICATION_INFO time) = 0 ->
  costs w 0 (show_notification E title message time).
Proof.
  intros Hw. unfold show_notification.
  apply (costs_try_except _ _ _ 0 0); [| apply costs_ret].
  apply costs_attempt. lia.
Qed.

(** No method other than [start_tailscaled] spawns a process, and the
    authentication step never does. *)
Lemma get_tailscale_status_spawns : costs is_spawn 0 (get_tailscale_status E).
Proof. unfold get_tailscale_status, getSetting. quiet. Qed.

Lemma login_spawns : costs is_spawn 0 (login E).
Proof.
  unfold login, show_auth_notification, show_notification, getSetting,
    xbmc_log, subprocess_run, notification.
  quiet.
Qed.

#[local] Hint Resolve get_tailscale_status_spawns login_spawns : costs.

Lemma authenticate_if_needed_spawns : costs is_spawn 0 (authenticate_if_needed E).
Proof.
  unfold authenticate_if_needed, show_auth_notification, show_notification,
    getSetting, xbmc_log, notification.
  quiet_with_hints.
Qed.

(** A call of [start_tailscaled] spawns at most one process. *)
Lemma start_tailscaled_spawns : costs is_spawn 1 (start_tailscaled E).
Proof.
  unfold start_tailscaled.
  apply (costs_try_except_Exception _ _ _ 1 0); [| intros e; quiet].
  apply (costs_bind _ _ _ 0 1);
    [apply is_tailscaled_running_costs; reflexivity | intros running].
  destruct running; [apply (costs_weaken _ _ 0 1); [lia | quiet] |].
  apply (costs_bind _ _ _ 0 1); [quiet | intros s].
  apply (costs_bind _ _ _ 0 1); [unfold getSetting; quiet | intros port].
  cbv zeta.
  apply (costs_bind _ _ _ 0 1); [quiet | intros _].
  apply (costs_bind _ _ _ 1 0); [apply costs_call; simpl; lia | intros p].
  quiet.
Qed.


(** A dict with a key is not empty, hence true. *)
Lemma json_truthy_dict (d : gmap string json) (key : string) (v : json) :
  d !! key = Some v -> json_truthy (JDict d) = true.
Proof.
  intros Hd. unfold json_truthy.
  destruct (map_to_list d) as [|kv l] eqn:Hl; [| reflexivity].
  apply map_to_list_empty_iff in Hl. subst d. rewrite lookup_empty in Hd. discriminate.
Qed.

(** The authentication step once the probe has returned a status dict. *)
Lemma authenticate_if_needed_dict (s : service) (result : completed)
    (d : gmap string json) (backend : json) :
  env_run E (trace s) (status_cmd s) (Some 10) = inl result ->
  returncode result = 0%Z ->
  json_loads E (stdout result) = inl (JDict d) ->
  d !! "BackendState" = Some backend ->
  let s1 := emit (EvRun (status_cmd s) (Some 10)) s in
  authenticate_if_needed E s =
  if json_eq_str backend "NeedsLogin" then
    if String.eqb (default "" (settings s !! "auto_login")) "true"
    then (login E ;; ret tt) s1
    else (xbmc_log "[Tailscale] Authentication needed but auto_login disabled" LOGINFO ;;
          show_auth_notification E) s1
  else (Ret tt, s1).
Proof.
  intros Hrun Hrc Hjson Hd s1.
  unfold authenticate_if_needed at 1. unfold bind at 1.
  rewrite get_tailscale_status_eq, Hrun, Hrc, Hjson. simpl.
  rewrite (json_truthy_dict d _ _ Hd). simpl.
  unfold bind at 1. unfold json_get, ret. rewrite Hd. simpl.
  destruct (json_eq_str backend "NeedsLogin"); [| reflexivity].
  unfold bind at 1. unfold getSetting. simpl.
  destruct (String.eqb _ "true"); reflexivity.
Qed.

(** C5. A probe whose status command exits non-zero, or prints text that
    [json.loads] rejects, returns [None]; it does not raise. *)
Theorem probe_failure_is_none (s : service) (result : completed) :
  env_run E (trace s) (status_cmd s) (Some 10) = inl result ->
  (returncode result <> 0%Z \/ exists msg, json_loads E (stdout result) = inr msg) ->
  fst (get_tailscale_status E s) = Ret JNone.
Proof.
  intros Hrun Hbad. rewrite get_tailscale_status_eq, Hrun.
  destruct (returncode result =? 0)%Z eqn:Hrc; [| reflexivity].
  destruct Hbad as [Hne | [msg Hmsg]].
  - apply Z.eqb_eq in Hrc. contradiction.
  - rewrite Hmsg. reflexivity.
Qed.

(** Whatever the probe meets, it lets through only what [except Exception]
    does not catch. *)
Lemma probe_raises_no_Exception (s : service) (e : exn) :
  fst (get_tailscale_status E s) = Raise e -> is_Exception e = false.
Proof.
  rewrite get_tailscale_status_eq.
  destruct (env_run E (trace s) (status_cmd s) (Some 10)) as [result | e'].
  - destruct (returncode result =? 0)%Z; [destruct (json_loads E (stdout result)) |];
      discriminate.
  - destruct (is_Exception e') eqn:He'; [discriminate |].
    simpl. intros [= <-]. exact He'.
Qed.

(** C6. With a status whose [BackendState] is ["Running"], the
    authentication step performs the status probe and nothing else: the
    number of login invocations in the trace stays what it was. *)
Theorem running_never_logs_in (s : service) (result : completed)
    (d : gmap string json) :
  env_run E (trace s) (status_cmd s) (Some 10) = inl result ->
  returncode result = 0%Z ->
  json_loads E (stdout result) = inl (JDict d) ->
  d !! "BackendState" = Some (JStr "Running") ->
  authenticate_if_needed E s = (Ret tt, emit (EvRun (status_cmd s) (Some 10)) s)
  /\ weight is_login (trace (snd (authenticate_if_needed E s)))
     = weight is_login (trace s).
Proof.
  intros Hrun Hrc Hjson Hd.
  rewrite (authenticate_if_needed_dict s result d _ Hrun Hrc Hjson Hd). simpl.
  split; [reflexivity |].
  rewrite weight_app. simpl. lia.
Qed.

(** C2, as the code has it.  With a status whose [BackendState] is
    ["NeedsLogin"] and the [auto_login] setting different from ["true"]
    (whether or not an auth key is configured), the authentication step
    logs, shows the manual-authentication notification and does not invoke
    the login command. *)
Theorem needs_login_without_auto_login (s : service) (result : completed)
    (d : gmap string json) :
  env_run E (trace s) (status_cmd s) (Some 10) = inl result ->
  returncode result = 0%Z ->
  json_loads E (stdout result) = inl (JDict d) ->
  d !! "BackendState" = Some (JStr "NeedsLogin") ->
  default "" (settings s !! "auto_login") <> "true" ->
  exists s',
    authenticate_if_needed E s = (Ret tt, s')
    /\ trace s' = trace s ++
         [ EvRun (status_cmd s) (Some 10);
           EvLog LOGINFO "[Tailscale] Authentication needed but auto_login disabled";
           EvNotify "Tailscale Authentication Required"
             "Please run 'tailscale up' manually or check addon settings"
             NOTIFICATION_INFO 10000 ]
    /\ weight is_login (trace s') = weight is_login (trace s).
Proof.
  intros Hrun Hrc Hjson Hd Hauto.
  rewrite (authenticate_if_needed_dict s result d _ Hrun Hrc Hjson Hd). simpl.
  apply String.eqb_neq in Hauto. rewrite Hauto.
  unfold bind, xbmc_log, perform, show_auth_notification, show_notification,
    try_except, notification, attempt. simpl.
  match goal with
  | |- context [env_notify E ?tr] => destruct (env_notify E tr)
  end; simpl.
  all: eexists; split; [reflexivity |]; simpl.
  all: rewrite <- !app_assoc; simpl; split; [reflexivity |].
  all: rewrite weight_app; simpl; lia.
Qed.

(** [stop_tailscale] returns normally from every state: its bare
    [except] swallows whatever [terminate] or [wait] raise. *)
Lemma stop_tailscale_returns (s : service) :
  exists s', stop_tailscale E s = (Ret tt, s').
Proof.
  unfold stop_tailscale, try_except, bind, get, poll, perform, terminate, attempt,
    wait, call, xbmc_log. simpl.
  destruct (tailscaled_process s) as [p |]; simpl; [| eexists; reflexivity].
  destruct (env_poll E (trace s) p); simpl; [eexists; reflexivity |].
  destruct (env_terminate E _ p); simpl; [eexists; reflexivity |].
  destruct (env_wait E _ p 10); simpl; eexists; reflexivity.
Qed.

(** C7. [stop_tailscale] can be called twice in a row from any state:
    both calls return normally.  With no process owned it is a no-op: when
    the handle was never set the state is left as it is, trace included,
    and when the owned child has already exited the call only polls it. *)
Theorem stop_tailscale_idempotent (s : service) :
  exists s1 s2,
    stop_tailscale E s = (Ret tt, s1)
    /\ stop_tailscale E s1 = (Ret tt, s2)
    /\ (tailscaled_process s = None -> s1 = s)
    /\ (forall p rc, tailscaled_process s = Some p ->
                     env_poll E (trace s) p = Some rc -> s1 = emit (EvPoll p) s).
Proof.
  destruct (stop_tailscale_returns s) as [s1 H1].
  destruct (stop_tailscale_returns s1) as [s2 H2].
  exists s1, s2. split; [assumption |]. split; [assumption |].
  revert H1.
  unfold stop_tailscale, try_except, bind, get, poll, perform. simpl.
  intros H1. split.
  - intros Hnone. rewrite Hnone in H1. simpl in H1.
    injection H1 as <-. reflexivity.
  - intros p rc Hp Hrc. rewrite Hp in H1. simpl in H1. rewrite Hrc in H1. simpl in H1.
    injection H1 as <-. reflexivity.
Qed.

(** C4, as the code has it.  With a live owned child whose [terminate]
    succeeds, [stop_tailscale] sends the terminate signal and waits up to
    10 seconds; when the wait ends in time it logs the stop, and when it
    times out the exception is swallowed.  In both cases the call returns
    normally and no forced kill is sent. *)
Theorem stop_terminates_and_waits (s : service) (p : nat) :
  tailscaled_process s = Some p ->
  env_poll E (trace s) p = None ->
  env_terminate E (trace s ++ [EvPoll p]) p = None ->
  exists s',
    stop_tailscale E s = (Ret tt, s')
    /\ trace s' = trace s ++ [EvPoll p; EvTerminate p; EvWait p 10] ++
         match env_wait E ((trace s ++ [EvPoll p]) ++ [EvTerminate p]) p 10 with
         | inl _ => [EvLog LOGINFO "[Tailscale] tailscaled stopped"]
         | inr _ => []
         end
    /\ weight is_kill (trace s') = weight is_kill (trace s).
Proof.
  intros Hp Hpoll Hterm.
  unfold stop_tailscale, try_except, bind, get, poll, perform, terminate, attempt,
    wait, call, xbmc_log. simpl.
  rewrite Hp. simpl. rewrite Hpoll. simpl. rewrite Hterm. simpl.
  destruct (env_wait E _ p 10); simpl.
  all: eexists; split; [reflexivity |]; simpl.
  all: rewrite <- !app_assoc; simpl; split; [reflexivity |].
  all: rewrite weight_app; simpl; lia.
Qed.

(** [start_tailscaled], spelled out by the answers of the environment. *)
Lemma start_tailscaled_eq (s : service) :
  let s1 := emit (EvRun pgrep_cmd None) s in
  let cmd := tailscaled_cmd s (default "" (settings s !! "daemon_port")) in
  let s2 := emit (EvLog LOGDEBUG ("[Tailscale] Starting tailscaled: " +:+ Py.join " " cmd)) s1 in
  let s3 := emit (EvPopen cmd (addon_data s)) s2 in
  start_tailscaled E s =
  if reports_running (env_run E (trace s) pgrep_cmd None)
  then (Ret true, emit (EvLog LOGINFO "[Tailscale] tailscaled already running") s1)
  else
    match env_popen E (trace s2) cmd (addon_data s) with
    | inl p =>
        let s4 := emit (EvPoll p) (emit (EvSleep 2) (set_tailscaled_process (Some p) s3)) in
        match env_poll E (trace s3 ++ [EvSleep 2]) p with
        | None =>
            (Ret true, emit (EvLog LOGINFO "[Tailscale] tailscaled started successfully") s4)
        | Some _ =>
            (Ret false, emit (EvLog LOGERROR "[Tailscale] tailscaled failed to start") s4)
        end
    | inr e =>
        if is_Exception e
        then (Ret false,
              emit (EvLog LOGERROR ("[Tailscale] Error starting tailscaled: " +:+ exn_str e)) s3)
        else (Raise e, s3)
    end.
Proof.
  unfold start_tailscaled, try_except_Exception. unfold bind at 1.
  rewrite is_tailscaled_running_eq.
  destruct (reports_running _); [reflexivity |].
  unfold bind, get, getSetting, xbmc_log, perform, Popen, call, modify, sleep, poll. simpl.
  destruct (env_popen E _ _ _) as [p | e]; simpl.
  - destruct (env_poll E _ p); reflexivity.
  - destruct (is_Exception e); reflexivity.
Qed.

(** The body of the polling loop, spelled out up to the restart. *)
Lemma run_tick_eq (s : service) :
  let s0 := emit (EvWaitForAbort 30) s in
  let s1 := emit (EvRun pgrep_cmd None) s0 in
  run_tick E s =
  if env_wait_for_abort E (trace s) 30 then (Ret true, s0)
  else if reports_running (env_run E (trace s0) pgrep_cmd None) then (Ret false, s1)
  else (start_tailscaled E ;; sleep 3 ;; authenticate_if_needed E ;; ret false)
         (emit (EvLog LOGWARNING "[Tailscale] Daemon died, restarting") s1).
Proof.
  unfold run_tick. unfold bind at 1. unfold waitForAbort, perform. simpl.
  destruct (env_wait_for_abort E (trace s) 30); [reflexivity |].
  unfold bind at 1. unfold bind at 1. rewrite is_tailscaled_running_eq. simpl.
  destruct (reports_running _); simpl; [reflexivity |].
  unfold bind, xbmc_log, perform, ret. simpl.
  destruct (start_tailscaled E _) as [[ok | e |] s2]; [| reflexivity | reflexivity].
  destruct (sleep 3 s2) as [[[] | e |] s3]; [| reflexivity | reflexivity].
  destruct (authenticate_if_needed E s3) as [[[] | e |] s4]; reflexivity.
Qed.


(** When the daemon is not found running, [start_tailscaled] spawns
    exactly one process. *)
Lemma start_tailscaled_dead_spawns (s : service) :
  reports_running (env_run E (trace s) pgrep_cmd None) = false ->
  exists evs, get_trace (snd (start_tailscaled E s)) = get_trace s ++ evs
              /\ weight is_spawn evs = 1.
Proof.
  intros Hdead. rewrite start_tailscaled_eq. simpl. rewrite Hdead.
  destruct (env_popen E _ _ _) as [p | e]; simpl.
  - destruct (env_poll E _ p); simpl; rewrite <- !app_assoc; simpl;
      eexists; (split; [reflexivity | reflexivity]).
  - destruct (is_Exception e); simpl; rewrite <- !app_assoc; simpl;
      eexists; (split; [reflexivity | reflexivity]).
Qed.

(** One pass of the polling loop spawns at most one process, whatever the
    environment answers. *)
Lemma run_tick_spawns : costs is_spawn 1 (run_tick E).
Proof.
  unfold run_tick.
  apply (costs_bind _ _ _ 0 1); [quiet | intros aborted].
  destruct aborted; [apply costs_ret |].
  apply (costs_bind _ _ _ 0 1);
    [apply is_tailscaled_running_costs; reflexivity | intros running].
  apply (costs_bind _ _ _ 1 0); [| intros _; apply costs_ret].
  destruct running; simpl; [apply costs_ret |].
  apply (costs_bind _ _ _ 0 1); [quiet | intros _].
  apply (costs_bind _ _ _ 1 0); [apply start_tailscaled_spawns | intros _].
  apply costs_bind0; [quiet | intros _]. apply authenticate_if_needed_spawns.
Qed.


(** C8. On a pass of the polling loop that is not aborted, when the
    liveness probe no longer finds the daemon and the daemon is still gone
    when [start_tailscaled] looks for it, exactly one process is spawned
    during the pass. *)
Theorem restart_once_per_tick (s : service) :
  env_wait_for_abort E (trace s) 30 = false ->
  reports_running (env_run E (trace s ++ [EvWaitForAbort 30]) pgrep_cmd None) = false ->
  reports_running
    (env_run E
       (((trace s ++ [EvWaitForAbort 30]) ++ [EvRun pgrep_cmd None])
          ++ [EvLog LOGWARNING "[Tailscale] Daemon died, restarting"])
       pgrep_cmd None) = false ->
  weight is_spawn (trace (snd (run_tick E s))) = weight is_spawn (trace s) + 1.
Proof.
  intros Hwait Hdead Hstill.
  rewrite run_tick_eq. simpl. rewrite Hwait, Hdead.
  match goal with
  | |- context [bind _ _ ?s1] =>
      destruct (bind_weight_exact is_spawn (start_tailscaled E)
                  (fun _ => sleep 3 ;; authenticate_if_needed E ;; ret false) s1 1)
        as (evs & Hevs & Hw)
  end.
  - apply start_tailscaled_dead_spawns. exact Hstill.
  - intros _. apply costs_bind0; [quiet | intros _].
    apply costs_bind0; [apply authenticate_if_needed_spawns | intros _; apply costs_ret].
  - simpl in Hevs. rewrite Hevs. rewrite !weight_app. simpl. lia.
Qed.

(** C9. The last argument of the daemon's command line is ["--port="]
    followed by the setting, and never the fallback ["41641"]: the
    concatenation is never empty, so Python's [or] keeps it.  With an empty
    [daemon_port] and the daemon not found running, [start_tailscaled]
    spawns it with the bare argument ["--port="]. *)
Theorem empty_port_spawns_bare_flag (s : service) :
  default "" (settings s !! "daemon_port") = "" ->
  reports_running (env_run E (trace s) pgrep_cmd None) = false ->
  let cmd := [ tailscaled_bin s;
               "--state=" +:+ Py.path_join (state_dir s) ["tailscaled.state"];
               "--socket=" +:+ Py.path_join (state_dir s) ["tailscaled.sock"];
               "--port=" ] in
  (forall port, tailscaled_cmd s port
                = [ tailscaled_bin s;
                    "--state=" +:+ Py.path_join (state_dir s) ["tailscaled.state"];
                    "--socket=" +:+ Py.path_join (state_dir s) ["tailscaled.sock"];
                    "--port=" +:+ port ])
  /\ exists evs,
       trace (snd (start_tailscaled E s))
       = trace s ++
           [ EvRun pgrep_cmd None;
             EvLog LOGDEBUG ("[Tailscale] Starting tailscaled: " +:+ Py.join " " cmd);
             EvPopen cmd (addon_data s) ] ++ evs.
Proof.
  intros Hport Hdead cmd. split; [intros port; reflexivity |].
  rewrite start_tailscaled_eq. simpl. rewrite Hdead, Hport.
  change (tailscaled_cmd s "") with cmd.
  destruct (env_popen E _ _ _) as [p | e]; simpl.
  - destruct (env_poll E _ p); simpl; rewrite <- !app_assoc; simpl;
      eexists; reflexivity.
  - destruct (is_Exception e); simpl; rewrite <- !app_assoc; simpl;
      eexists; reflexivity.
Qed.

End Facts.

(** *** The statements at sample inputs *)

Import Scenario.

(** [service_of] is what [__init__] builds when both directories exist. *)
Lemma init_builds_service_of (settings : gmap string string) :
  init running_world "/storage/.kodi/addons/service.tailscale"
    "/storage/.kodi/userdata/addon_data/service.tailscale" (blank settings)
  = (Ret tt,
     with_trace
       [ EvExists "/storage/.kodi/userdata/addon_data/service.tailscale";
         EvExists "/storage/.kodi/userdata/addon_data/service.tailscale/tailscale-state";
         EvLog LOGINFO "[Tailscale] Service initialized" ]
       (service_of settings)).
Proof. reflexivity. Qed.

Lemma probe_failure_is_none_witness :
  fst (get_tailscale_status garbled_world (service_of ∅)) = Ret JNone.
Proof.
  apply (probe_failure_is_none garbled_world (service_of ∅) (ok "{not valid")).
  - reflexivity.
  - right. eexists. reflexivity.
Defined.

Lemma running_never_logs_in_witness :
  weight is_login (trace (snd (authenticate_if_needed running_world (service_of ∅)))) = 0.
Proof.
  apply (running_never_logs_in running_world (service_of ∅)
           (ok (status_json "Running")) {[ "BackendState" := JStr "Running" ]});
    reflexivity.
Defined.

Lemma needs_login_without_auto_login_witness :
  exists s',
    authenticate_if_needed needs_login_world
      (service_of {[ "auth_key" := "tskey-abc123" ]}) = (Ret tt, s')
    /\ weight is_login (trace s') = 0.
Proof.
  destruct (needs_login_without_auto_login needs_login_world
              (service_of {[ "auth_key" := "tskey-abc123" ]})
              (ok (status_json "NeedsLogin")) {[ "BackendState" := JStr "NeedsLogin" ]})
    as (s' & Hrun & _ & Hcount).
  - reflexivity.
  - reflexivity.
  - reflexivity.
  - reflexivity.
  - vm_compute. discriminate.
  - exists s'. split; [exact Hrun | exact Hcount].
Defined.

(** C2 fails as stated.  The daemon needs a login, no auth key is
    configured and [auto_login] is ["true"]: the authentication step runs
    [tailscale up] (without [--authkey]) and reports a successful login; no
    manual-authentication notification is shown. *)
Lemma needs_login_without_key_logs_in :
  let s := service_of {[ "auto_login" := "true" ]} in
  settings s !! "auth_key" = None
  /\ fst (get_tailscale_status needs_login_world s)
     = Ret (JDict {[ "BackendState" := JStr "NeedsLogin" ]})
  /\ trace (snd (authenticate_if_needed needs_login_world s))
     = [ EvRun (status_cmd s) (Some 10);
         EvLog LOGDEBUG ("[Tailscale] Logging in with command: "
                         +:+ Py.join " " (login_cmd s "" "" false false));
         EvRun (login_cmd s "" "" false false) (Some 60);
         EvLog LOGINFO "[Tailscale] Login successful";
         EvNotify "Tailscale" "Connected successfully" NOTIFICATION_INFO 5000 ]
  /\ weight is_login (trace (snd (authenticate_if_needed needs_login_world s))) = 1.
Proof. vm_compute. repeat split; reflexivity. Qed.

Lemma stop_tailscale_idempotent_witness :
  exists s1 s2,
    stop_tailscale stuck_child_world (service_of ∅) = (Ret tt, s1)
    /\ stop_tailscale stuck_child_world s1 = (Ret tt, s2)
    /\ s1 = service_of ∅.
Proof.
  destruct (stop_tailscale_idempotent stuck_child_world (service_of ∅))
    as (s1 & s2 & H1 & H2 & Hnoop & _).
  exists s1, s2. split; [exact H1 |]. split; [exact H2 |].
  apply Hnoop. reflexivity.
Defined.

Lemma stop_terminates_and_waits_witness :
  exists s',
    stop_tailscale running_world (owning 1 (service_of ∅)) = (Ret tt, s')
    /\ weight is_kill (trace s') = 0.
Proof.
  destruct (stop_terminates_and_waits running_world (owning 1 (service_of ∅)) 1)
    as (s' & Hrun & _ & Hkill); [reflexivity | reflexivity | reflexivity |].
  exists s'. split; [exact Hrun | exact Hkill].
Defined.

(** C4 fails as stated.  The owned child is alive and outlives the
    10-second wait: [stop_tailscale] has sent the terminate signal and
    waited, then returns with the child still alive and no kill sent. *)
Lemma stop_does_not_escalate :
  let s := owning 1 (service_of ∅) in
  let r := stop_tailscale stuck_child_world s in
  fst r = Ret tt
  /\ trace (snd r) = [EvPoll 1; EvTerminate 1; EvWait 1 10]
  /\ weight is_kill (trace (snd r)) = 0
  /\ env_poll stuck_child_world (trace (snd r)) 1 = None.
Proof. vm_compute. repeat split; reflexivity. Qed.



Lemma restart_once_per_tick_witness :
  weight is_spawn (trace (snd (run_tick dying_world (service_of ∅)))) = 1.
Proof.
  apply (restart_once_per_tick dying_world (service_of ∅)); reflexivity.
Defined.

Lemma empty_port_spawns_bare_flag_witness :
  exists evs,
    trace (snd (start_tailscaled dying_world (service_of {[ "daemon_port" := "" ]})))
    = [ EvRun pgrep_cmd None;
        EvLog LOGDEBUG
          "[Tailscale] Starting tailscaled: /storage/.kodi/addons/service.tailscale/bin/tailscaled --state=/storage/.kodi/userdata/addon_data/service.tailscale/tailscale-state/tailscaled.state --socket=/storage/.kodi/userdata/addon_data/service.tailscale/tailscale-state/tailscaled.sock --port=";
        EvPopen
          [ "/storage/.kodi/addons/service.tailscale/bin/tailscaled";
            "--state=/storage/.kodi/userdata/addon_data/service.tailscale/tailscale-state/tailscaled.state";
            "--socket=/storage/.kodi/userdata/addon_data/service.tailscale/tailscale-state/tailscaled.sock";
            "--port=" ]
          "/storage/.kodi/userdata/addon_data/service.tailscale" ] ++ evs.
Proof.
  destruct (empty_port_spawns_bare_flag dying_world
              (service_of {[ "daemon_port" := "" ]})) as (_ & evs & Hevs);
    [reflexivity | reflexivity |].
  exists evs. exact Hevs.
Defined.

(** What [login] writes to the log depends on the shape of the key: an
    argument that starts with ["tskey-"] is left out of the logged command
    line, any other key is logged with it. *)
Lemma login_redacts_tskey_argument :
  let s := service_of {[ "auth_key" := "tskey-abc123" ]} in
  log_lines (trace (snd (login needs_login_world s)))
  = [ "[Tailscale] Using auth key for authentication";
      "[Tailscale] Logging in with command: /storage/.kodi/addons/service.tailscale/bin/tailscale --socket=/storage/.kodi/userdata/addon_data/service.tailscale/tailscale-state/tailscaled.sock up --authkey";
      "[Tailscale] Login successful" ]
  /\ existsb (fun line => Py.contains line "tskey-abc123")
       (log_lines (trace (snd (login needs_login_world s)))) = false.
Proof. vm_compute. split; reflexivity. Qed.

Lemma login_logs_other_key :
  let s := service_of {[ "auth_key" := "0123456789abcdef" ]} in
  existsb (fun line => Py.contains line "0123456789abcdef")
    (log_lines (trace (snd (login needs_login_world s)))) = true.
Proof. vm_compute. reflexivity. Qed.

End TailscaleServiceFacts.

(** ** Facts about [TailscaleConfigService] *)

Module TailscaleConfigServiceFacts.
Import TailscaleConfigService.

(** Substrings of concatenations and joins. *)
Lemma prefix_nil (s : string) : String.prefix "" s = true.
Proof. destruct s; reflexivity. Qed.

Lemma prefix_app (k b : string) : String.prefix k (k +:+ b) = true.
Proof.
  induction k as [|c k IH]; [apply prefix_nil |].
  change (String c k +:+ b) with (String c (k +:+ b)). simpl.
  destruct (ascii_dec c c); [exact IH | contradiction].
Qed.

Lemma contains_prefix (h k : string) :
  String.prefix k h = true -> Py.contains h k = true.
Proof.
  intros Hp. destruct h; unfold Py.contains; fold Py.contains; rewrite Hp; reflexivity.
Qed.

Lemma contains_app (a k b : string) : Py.contains (a +:+ k +:+ b) k = true.
Proof.
  induction a as [|c a IH].
  - change ("" +:+ k +:+ b) with (k +:+ b). apply contains_prefix, prefix_app.
  - change (String c a +:+ k +:+ b) with (String c (a +:+ k +:+ b)).
    simpl. rewrite IH. apply orb_true_r.
Qed.

Lemma append_assoc (a b c : string) : (a +:+ b) +:+ c = a +:+ b +:+ c.
Proof.
  induction a as [|x a IH]; [reflexivity |].
  change (String x ((a +:+ b) +:+ c) = String x (a +:+ b +:+ c)).
  rewrite IH. reflexivity.
Qed.

Lemma append_nil_r (a : string) : a +:+ "" = a.
Proof.
  induction a as [|x a IH]; [reflexivity |].
  change (String x (a +:+ "") = String x a). rewrite IH. reflexivity.
Qed.

Lemma join_cons (sep x : string) (l : list string) :
  exists b, Py.join sep (x :: l) = x +:+ b.
Proof.
  destruct l as [|y l].
  - exists "". simpl. rewrite append_nil_r. reflexivity.
  - eexists. reflexivity.
Qed.

(** The line [apply_settings] logs before running [tailscale up] contains
    the auth key, whichever key and options are configured. *)
Lemma running_line_contains_key (authkey exit_node hostname advertise_routes : string)
    (accept_routes ssh_enabled : bool) :
  Py.contains
    ("Running: " +:+ Py.join " "
       (cmd_parts authkey exit_node hostname advertise_routes accept_routes ssh_enabled))
    authkey = true.
Proof.
  unfold cmd_parts.
  match goal with
  | |- context [?a ++ [?k] ++ ?t] =>
      destruct (join_cons " " k t) as [b Hb];
      change (Py.join " " (a ++ [k] ++ t))
        with ("/storage/.kodi/addons/service.tailscale/bin/tailscale" +:+
              " " +:+ "up" +:+ " " +:+ Py.join " " (k :: t));
      rewrite Hb
  end.
  rewrite append_assoc.
  change (Py.contains
            ("Running: /storage/.kodi/addons/service.tailscale/bin/tailscale up --authkey="
             +:+ authkey +:+ b) authkey = true).
  apply contains_app.
Qed.

Lemma contains_app_r (a h k : string) :
  Py.contains h k = true -> Py.contains (a +:+ h) k = true.
Proof.
  intros Hh. induction a as [|c a IH]; [exact Hh |].
  change (String c a +:+ h) with (String c (a +:+ h)).
  simpl. rewrite IH. apply orb_true_r.
Qed.

Lemma bind_ret_eq {S A B} (c : M S A) (k : A -> M S B) (s s' : S) (a : A) :
  c s = (Ret a, s') -> bind c k s = k a s'.
Proof. intros Hc. unfold bind. rewrite Hc. reflexivity. Qed.

Lemma log_lines_app (a b : list event) : log_lines (a ++ b) = log_lines a ++ log_lines b.
Proof. apply omap_app. Qed.

Section Leak.
Variable E : Env.

(** The shell, the file system and the notifications do not fail in ways
    that [apply_settings] cannot handle. *)
Hypothesis shell_raises_Exception :
  forall tr cmd e, env_shell E tr cmd = inr e -> is_Exception e = true.
Hypothesis write_succeeds : forall tr path content, env_write E tr path content = None.
Hypothesis chmod_succeeds : forall tr path mode, env_chmod E tr path mode = None.

Lemma run_command_returns (cmd : string) (s : service) :
  exists r s' evs, run_command E cmd s = (Ret r, s') /\ trace s' = trace s ++ evs.
Proof.
  unfold run_command, try_except_Exception, bind, subprocess_shell, call, log,
    xbmc_log, perform, ret. simpl.
  destruct (env_shell E (trace s) cmd) as [r | e] eqn:Hsh; simpl.
  - do 3 eexists. split; reflexivity.
  - rewrite (shell_raises_Exception _ _ _ Hsh). simpl.
    do 3 eexists. split; [reflexivity |]. simpl. rewrite <- app_assoc. reflexivity.
Qed.

Lemma apply_settings_appends : costs (fun _ => 0) 0 (apply_settings E).
Proof.
  unfold apply_settings, run_command, getSettingBool, getSettingString, log,
    xbmc_log, subprocess_shell, path_exists, remove, write_file, chmod, sleep,
    notification.
  quiet.
Qed.

#[local] Arguments cmd_parts : simpl never.
#[local] Arguments Py.join : simpl never.
#[local] Arguments Py.contains : simpl never.

Ltac peel tac :=
  match goal with
  | |- context [@bind ?S ?A ?B ?c ?k ?s] =>
      let H := fresh "Hstep" in
      eassert (H : c s = (Ret _, _)) by tac;
      rewrite (@bind_ret_eq S A B c k s _ _ H); clear H
  end.

Lemma apply_settings_logs_key (s : service) :
  String.eqb (default "" (settings s !! "enabled")) "true" = true ->
  Py.truthy (Py.strip (default "" (settings s !! "authkey"))) = true ->
  existsb (fun line => Py.contains line (Py.strip (default "" (settings s !! "authkey"))))
    (log_lines (trace (snd (apply_settings E s)))) = true.
Proof.
  intros Hen Hkey.
  set (key := Py.strip (default "" (settings s !! "authkey"))) in *.
  unfold apply_settings.
  do 7 (peel ltac:(idtac; reflexivity)).
  cbv zeta. fold key. rewrite Hen.
  peel ltac:(idtac; reflexivity).
  rewrite Hkey. change (negb true || negb true) with false. cbv iota.
  peel ltac:(idtac; unfold write_file, attempt; rewrite write_succeeds; reflexivity).
  peel ltac:(idtac; unfold chmod, attempt; rewrite chmod_succeeds; reflexivity).
  peel ltac:(idtac; reflexivity).
  match goal with
  | |- context [@bind _ _ _ (run_command E ?cmd) _ ?s0] =>
      destruct (run_command_returns cmd s0) as (r1 & s1 & evs1 & Hr1 & Ht1)
  end.
  peel ltac:(idtac; exact Hr1).
  match goal with
  | |- context [@bind _ _ _ (run_command E ?cmd) _ ?s0] =>
      destruct (run_command_returns cmd s0) as (r2 & s2 & evs2 & Hr2 & Ht2)
  end.
  peel ltac:(idtac; exact Hr2).
  peel ltac:(idtac; reflexivity).
  peel ltac:(idtac; reflexivity).
  match goal with
  | |- context [snd (?rest ?s5)] =>
      assert (Hrest : costs (fun _ => 0) 0 rest);
      [| destruct (Hrest s5) as (evs & Hevs & _) ]
  end.
  { unfold run_command, log, xbmc_log, subprocess_shell, notification. quiet. }
  simpl in Hevs. simpl. rewrite Hevs.
  rewrite !log_lines_app, !existsb_app. simpl.
  rewrite (contains_app_r "[Tailscale Config] " _ key
             (running_line_contains_key key _ _ _ _ _)).
  rewrite orb_true_r. reflexivity.
Qed.
End Leak.

(** C1, violated by the code.  No logged command line should contain the
    configured auth key.  With the service enabled and the auth key
    ["tskey-abc123"], [apply_settings] writes the whole [tailscale up]
    command line, key included, to the log. *)
Theorem apply_settings_logs_authkey :
  let s := mk_service (<["enabled" := "true"]> {[ "authkey" := "tskey-abc123" ]}) [] in
  let r := apply_settings Scenario.running_world s in
  fst r = Ret tt
  /\ log_lines (trace (snd r))
     = [ "[Tailscale Config] Applying settings - Enabled: True, Has authkey: True";
         "[Tailscale Config] Enabling Tailscale service";
         "[Tailscale Config] Running: /storage/.kodi/addons/service.tailscale/bin/tailscale up --authkey=tskey-abc123";
         "[Tailscale Config] Tailscale configured successfully" ]
  /\ existsb (fun line => Py.contains line "tskey-abc123") (log_lines (trace (snd r)))
     = true.
Proof. vm_compute. repeat split; reflexivity. Qed.

End TailscaleConfigServiceFacts.

(** ** Facts about [RavenSetupWizard.save_config] *)

Module RavenSetupWizardFacts.
Import RavenSetupWizard.

Section Facts.
Variable E : Env.

(** [save_config], spelled out by the fields present and the outcome of
    the write. *)
Lemma save_config_eq (w : wizard) :
  save_config E w =
  match config w !! "jellyfin_server", config w !! "jellyfin_username",
        config w !! "device_hostname" with
  | Some server, Some username, Some hostname =>
      let doc := JDict (safe_config server username hostname
                          (env_strftime E (trace w) "%Y-%m-%d %H:%M:%S")) in
      let w1 := emit (EvJsonDump config_file doc) w in
      match env_json_dump E (trace w) config_file doc with
      | None => (Ret true, w1)
      | Some e =>
          if is_Exception e
          then (Ret false, emit (EvLog LOGERROR ("Error saving config: " +:+ exn_str e)) w1)
          else (Raise e, w1)
      end
  | None, _, _ =>
      (Ret false,
       emit (EvLog LOGERROR ("Error saving config: " +:+ exn_str (KeyError "jellyfin_server"))) w)
  | Some _, None, _ =>
      (Ret false,
       emit (EvLog LOGERROR ("Error saving config: " +:+ exn_str (KeyError "jellyfin_username"))) w)
  | Some _, Some _, None =>
      (Ret false,
       emit (EvLog LOGERROR ("Error saving config: " +:+ exn_str (KeyError "device_hostname"))) w)
  end.
Proof.
  unfold save_config, try_except_Exception, bind, config_item, strftime,
    json_dump_file, attempt, xbmc_log, perform, ret, safe_config. simpl.
  destruct (config w !! "jellyfin_server"); simpl; [| reflexivity].
  destruct (config w !! "jellyfin_username"); simpl; [| reflexivity].
  destruct (config w !! "device_hostname"); simpl; [| reflexivity].
  destruct (env_json_dump E _ _ _) as [e |]; simpl; [| reflexivity].
  destruct (is_Exception e); reflexivity.
Qed.

Lemma safe_config_dom (server username hostname date : string) :
  dom (safe_config server username hostname date)
  = {[ "jellyfin_server"; "jellyfin_username"; "device_hostname";
       "setup_completed"; "setup_date" ]}.
Proof. unfold safe_config. rewrite !dom_insert_L, dom_empty_L. set_solver. Qed.

(** C10. Whatever the password and the auth key held in the wizard's
    configuration, [save_config] returns the same result and leaves the
    same trace; and every document it writes goes to [raven-config.json]
    and is a dict with exactly the keys [jellyfin_server],
    [jellyfin_username], [device_hostname], [setup_completed] and
    [setup_date], the first three holding the configuration's fields of
    those names and [setup_completed] being [True]. *)
Theorem save_config_hides_secrets (w : wizard) (password authkey : string) :
  let w' := set_config (<["jellyfin_password" := password]>
                          (<["tailscale_authkey" := authkey]> (config w))) w in
  fst (save_config E w') = fst (save_config E w)
  /\ trace (snd (save_config E w')) = trace (snd (save_config E w))
  /\ forall path doc,
       In (EvJsonDump path doc) (trace (snd (save_config E w))) ->
       In (EvJsonDump path doc) (trace w)
       \/ (path = config_file
           /\ exists d,
                doc = JDict d
                /\ dom d = {[ "jellyfin_server"; "jellyfin_username"; "device_hostname";
                              "setup_completed"; "setup_date" ]}
                /\ d !! "jellyfin_server" = JStr <$> (config w !! "jellyfin_server")
                /\ d !! "jellyfin_username" = JStr <$> (config w !! "jellyfin_username")
                /\ d !! "device_hostname" = JStr <$> (config w !! "device_hostname")
                /\ d !! "setup_completed" = Some (JBool true)).
Proof.
  intros w'.
  assert (Hsame : forall key, key <> "jellyfin_password" -> key <> "tailscale_authkey" ->
                    config w' !! key = config w !! key).
  { intros key H1 H2. unfold w', set_config. simpl.
    rewrite !lookup_insert_ne by congruence. reflexivity. }
  rewrite !save_config_eq.
  rewrite !Hsame by discriminate.
  change (trace w') with (trace w).
  destruct (config w !! "jellyfin_server") as [server |] eqn:Hs;
    [| repeat split; try reflexivity; intros path doc Hin; left;
       simpl in Hin; apply in_app_iff in Hin as [Hin | [Hin | []]];
       [exact Hin | discriminate] ].
  destruct (config w !! "jellyfin_username") as [username |] eqn:Hu;
    [| repeat split; try reflexivity; intros path doc Hin; left;
       simpl in Hin; apply in_app_iff in Hin as [Hin | [Hin | []]];
       [exact Hin | discriminate] ].
  destruct (config w !! "device_hostname") as [hostname |] eqn:Hh;
    [| repeat split; try reflexivity; intros path doc Hin; left;
       simpl in Hin; apply in_app_iff in Hin as [Hin | [Hin | []]];
       [exact Hin | discriminate] ].
  cbv zeta.
  set (date := env_strftime E (trace w) "%Y-%m-%d %H:%M:%S").
  assert (Hdoc : forall path doc tl,
            In (EvJsonDump path doc)
              ((trace w ++ [EvJsonDump config_file
                              (JDict (safe_config server username hostname date))]) ++ tl) ->
            (forall ev, In ev tl -> is_json_dump ev = 0) ->
            In (EvJsonDump path doc) (trace w)
            \/ (path = config_file
                /\ exists d,
                     doc = JDict d
                     /\ dom d = {[ "jellyfin_server"; "jellyfin_username";
                                   "device_hostname"; "setup_completed"; "setup_date" ]}
                     /\ d !! "jellyfin_server" = JStr <$> Some server
                     /\ d !! "jellyfin_username" = JStr <$> Some username
                     /\ d !! "device_hostname" = JStr <$> Some hostname
                     /\ d !! "setup_completed" = Some (JBool true))).
  { intros path doc tl Hin Htl.
    apply in_app_iff in Hin as [Hin | Hin].
    - apply in_app_iff in Hin as [Hin | [Hin | []]]; [left; exact Hin |].
      right. injection Hin as <- <-. split; [reflexivity |].
      eexists. split; [reflexivity |]. split; [apply safe_config_dom |].
      unfold safe_config. repeat split; simplify_map_eq; reflexivity.
    - apply Htl in Hin. discriminate. }
  destruct (env_json_dump E (trace w) config_file _) as [e |].
  - destruct (is_Exception e); simpl.
    + repeat split; try reflexivity. intros path doc Hin.
      apply (Hdoc path doc _ Hin). intros ev [<- | []]. reflexivity.
    + repeat split; try reflexivity. intros path doc Hin.
      apply (Hdoc path doc []); [rewrite app_nil_r; exact Hin | intros ev []].
  - simpl. repeat split; try reflexivity. intros path doc Hin.
    apply (Hdoc path doc []); [rewrite app_nil_r; exact Hin | intros ev []].
Qed.

End Facts.

Lemma save_config_hides_secrets_witness :
  let E := Scenario.running_world in
  let w := mk_wizard (RavenSetupWizard.initial_config "raven") [] in
  let w' := set_config (<["jellyfin_password" := "hunter2"]>
                          (<["tailscale_authkey" := "tskey-abc123"]> (config w))) w in
  trace (snd (save_config E w')) = trace (snd (save_config E w))
  /\ exists d,
       trace (snd (save_config E w)) = [EvJsonDump config_file (JDict d)]
       /\ dom d = {[ "jellyfin_server"; "jellyfin_username"; "device_hostname";
                     "setup_completed"; "setup_date" ]}.
Proof.
  intros E w w'.
  destruct (save_config_hides_secrets E w "hunter2" "tskey-abc123") as (_ & Htrace & Hdoc).
  split; [exact Htrace |].
  destruct (Hdoc config_file
              (JDict (safe_config "" "" "raven" "2025-06-01 12:00:00")))
    as [[] | (_ & d & Hd & Hdom & _)]; [left; reflexivity |].
  exists d. split; [rewrite <- Hd; reflexivity | exact Hdom].
Defined.

End RavenSetupWizardFacts.

(** ** More about [TailscaleService]: starting, stopping and the loop *)

Module TailscaleServiceMore.
Import TailscaleService TailscaleServiceFacts.


#[local] Arguments Py.join : simpl never.
#[local] Arguments tailscaled_cmd : simpl never.
#[local] Arguments json_truthy : simpl never.

Section More.
Variable E : Env.

(** X1. The liveness probe always returns: [True] exactly when [pgrep]
    could be run and exited with 0, [False] on any other exit and on any
    exception, whatever its class. *)
Theorem liveness_probe_total (s : service) :
  exists running,
    is_tailscaled_running E s = (Ret running, emit (EvRun pgrep_cmd None) s)
    /\ (running = true <->
        exists result, env_run E (trace s) pgrep_cmd None = inl result
                       /\ returncode result = 0%Z).
Proof.
  rewrite is_tailscaled_running_eq. eexists. split; [reflexivity |].
  destruct (env_run E (trace s) pgrep_cmd None) as [result | e]; simpl.
  - rewrite Z.eqb_eq. split.
    + intros Hrc. exists result. split; [reflexivity | exact Hrc].
    + intros (r & [= <-] & Hrc). exact Hrc.
  - split; [discriminate | intros (r & Hr & _); discriminate].
Qed.

(** X2. When the daemon is found running, [start_tailscaled] reports
    success without spawning anything and without touching the process
    handle. *)
Theorem start_when_running_is_noop (s : service) :
  reports_running (env_run E (trace s) pgrep_cmd None) = true ->
  exists s',
    start_tailscaled E s = (Ret true, s')
    /\ tailscaled_process s' = tailscaled_process s
    /\ trace s' = trace s ++
         [ EvRun pgrep_cmd None;
           EvLog LOGINFO "[Tailscale] tailscaled already running" ].
Proof.
  intros Hrun. rewrite start_tailscaled_eq. simpl. rewrite Hrun.
  eexists. split; [reflexivity |]. split; [reflexivity |].
  simpl. rewrite <- app_assoc. reflexivity.
Qed.

(** X3. A daemon that was already running when the service started is not
    the service's to stop: with no handle set, [start_tailscaled] followed
    by [stop_tailscale] sends no signal at all. *)
Theorem foreign_daemon_is_not_stopped (s : service) :
  tailscaled_process s = None ->
  reports_running (env_run E (trace s) pgrep_cmd None) = true ->
  exists s',
    (start_tailscaled E ;; stop_tailscale E) s = (Ret tt, s')
    /\ trace s' = trace s ++
         [ EvRun pgrep_cmd None;
           EvLog LOGINFO "[Tailscale] tailscaled already running" ].
Proof.
  intros Hnone Hrun. unfold bind at 1.
  rewrite start_tailscaled_eq. simpl. rewrite Hrun.
  unfold stop_tailscale, try_except, bind, get. simpl. rewrite Hnone. simpl.
  eexists. split; [reflexivity |]. simpl. rewrite <- app_assoc. reflexivity.
Qed.

(** X4. When the daemon cannot be spawned ([Popen] raises an exception
    deriving from [Exception], as for a missing binary),
    [start_tailscaled] logs the error and returns [False]; the process
    handle keeps whatever it held before. *)
Theorem spawn_failure_is_reported (s : service) (e : exn) :
  let cmd := tailscaled_cmd s (default "" (settings s !! "daemon_port")) in
  let tr := (trace s ++ [EvRun pgrep_cmd None])
              ++ [EvLog LOGDEBUG ("[Tailscale] Starting tailscaled: " +:+ Py.join " " cmd)] in
  reports_running (env_run E (trace s) pgrep_cmd None) = false ->
  env_popen E tr cmd (addon_data s) = inr e ->
  is_Exception e = true ->
  exists s',
    start_tailscaled E s = (Ret false, s')
    /\ tailscaled_process s' = tailscaled_process s
    /\ trace s' = tr ++
         [ EvPopen cmd (addon_data s);
           EvLog LOGERROR ("[Tailscale] Error starting tailscaled: " +:+ exn_str e) ].
Proof.
  intros cmd tr Hdead Hpopen Hexc. rewrite start_tailscaled_eq. simpl.
  rewrite Hdead. fold cmd. fold tr. rewrite Hpopen, Hexc.
  eexists. split; [reflexivity |]. split; [reflexivity |].
  simpl. fold cmd. fold tr. rewrite <- app_assoc. reflexivity.
Qed.

(** X5. When the daemon is spawned, the result of [start_tailscaled] is
    that of polling the new child after the 2-second grace sleep: [True]
    when it is still alive, [False] when it has exited.  In both cases the
    handle now holds the new child. *)
Theorem start_result_follows_child (s : service) (p : nat) :
  let cmd := tailscaled_cmd s (default "" (settings s !! "daemon_port")) in
  let tr := (trace s ++ [EvRun pgrep_cmd None])
              ++ [EvLog LOGDEBUG ("[Tailscale] Starting tailscaled: " +:+ Py.join " " cmd)] in
  reports_running (env_run E (trace s) pgrep_cmd None) = false ->
  env_popen E tr cmd (addon_data s) = inl p ->
  exists started s',
    start_tailscaled E s = (Ret started, s')
    /\ tailscaled_process s' = Some p
    /\ (started = true <->
        env_poll E ((tr ++ [EvPopen cmd (addon_data s)]) ++ [EvSleep 2]) p = None).
Proof.
  intros cmd tr Hdead Hpopen. rewrite start_tailscaled_eq. simpl.
  rewrite Hdead. fold cmd. fold tr. rewrite Hpopen.
  destruct (env_poll E _ p) as [rc |].
  - do 2 eexists. split; [reflexivity |]. split; [reflexivity |].
    split; discriminate.
  - do 2 eexists. split; [reflexivity |]. split; [reflexivity |].
    split; reflexivity.
Qed.

(** X6. When the first start fails, [run] logs it and returns at once: no
    status probe, no question to Kodi's monitor, no stop. *)
Theorem run_exits_on_failed_start (s s1 : service) (fuel : nat) :
  start_tailscaled E (emit (EvLog LOGINFO "[Tailscale] Service starting") s)
  = (Ret false, s1) ->
  run E fuel s
  = (Ret tt, emit (EvLog LOGERROR "[Tailscale] Failed to start daemon, exiting") s1).
Proof.
  intros Hstart. unfold run. unfold bind at 1. unfold xbmc_log at 1, perform.
  unfold bind at 1. simpl. simpl in Hstart. rewrite Hstart. reflexivity.
Qed.






(** A notification is attempted and its failure swallowed. *)
Lemma show_notification_eq (title message : string) (time : N) (s : service) :
  show_notification E title message time s
  = (Ret tt, emit (EvNotify title message NOTIFICATION_INFO time) s).
Proof.
  unfold show_notification, try_except, notification, attempt.
  destruct (env_notify E (get_trace s)); reflexivity.
Qed.

(** [login], spelled out by the outcome of [tailscale up]. *)
Lemma login_eq (s : service) :
  let key := default "" (settings s !! "auth_key") in
  let cmd := login_cmd s key (default "" (settings s !! "hostname"))
               (String.eqb (default "" (settings s !! "accept_routes")) "true")
               (String.eqb (default "" (settings s !! "accept_dns")) "true") in
  let s1 := if Py.truthy key && Py.truthy (Py.strip key)
            then emit (EvLog LOGINFO "[Tailscale] Using auth key for authentication") s
            else s in
  let s2 := emit (EvLog LOGDEBUG ("[Tailscale] Logging in with command: "
                                  +:+ logged_cmd cmd)) s1 in
  let s3 := emit (EvRun cmd (Some 60)) s2 in
  login E s =
  match env_run E (trace s2) cmd (Some 60) with
  | inl result =>
      if (returncode result =? 0)%Z then
        (Ret true,
         emit (EvNotify "Tailscale" "Connected successfully" NOTIFICATION_INFO 5000)
           (emit (EvLog LOGINFO "[Tailscale] Login successful") s3))
      else
        let s4 := emit (EvLog LOGERROR ("[Tailscale] Login failed: " +:+ stderr result)) s3 in
        (Ret false,
         if Py.contains (stderr result) "visit the admin console"
         then emit (EvNotify "Tailscale Authentication Required"
                      "Please run 'tailscale up' manually or check addon settings"
                      NOTIFICATION_INFO 10000) s4
         else s4)
  | inr e =>
      if is_Exception e
      then (Ret false,
            emit (EvLog LOGERROR ("[Tailscale] Error during login: " +:+ exn_str e)) s3)
      else (Raise e, s3)
  end.
Proof.
  unfold login, try_except_Exception. unfold bind at 1. unfold get.
  unfold bind at 1. unfold getSetting at 1.
  cbv beta iota zeta.
  set (key := default "" (settings s !! "auth_key")).
  destruct (Py.truthy key && Py.truthy (Py.strip key)) eqn:Hkey.
  all: unfold bind, getSetting, xbmc_log, perform, subprocess_run, call; simpl.
  all: rewrite ?Hkey.
  all: destruct (env_run E _ _ (Some 60)) as [result | e]; simpl;
    [ destruct (returncode result =? 0)%Z; simpl;
      [ rewrite show_notification_eq; reflexivity
      | destruct (Py.contains (stderr result) "visit the admin console"); simpl;
        [ unfold show_auth_notification; rewrite show_notification_eq; reflexivity
        | reflexivity ] ]
    | destruct (is_Exception e); reflexivity ].
Qed.

(** Every call of [login] runs [tailscale up] once. *)
Lemma login_once (s : service) :
  exists evs, get_trace (snd (login E s)) = get_trace s ++ evs
              /\ weight is_login evs = 1.
Proof.
  rewrite login_eq. cbv zeta.
  destruct (Py.truthy _ && Py.truthy _);
    (destruct (env_run E _ _ (Some 60)) as [result | e];
     [ destruct (returncode result =? 0)%Z;
       [| destruct (Py.contains (stderr result) "visit the admin console") ]
     | destruct (is_Exception e) ]);
    simpl; rewrite <- ?app_assoc; simpl;
    eexists; (split; [reflexivity | reflexivity]).
Qed.

Lemma get_tailscale_status_logins : costs is_login 0 (get_tailscale_status E).
Proof. unfold get_tailscale_status. quiet. Qed.

(** The authentication step, continued from the outcome of its probe. *)
Lemma authenticate_after_probe (s s1 : service) (status : json) :
  get_tailscale_status E s = (Ret status, s1) ->
  authenticate_if_needed E s =
  (if negb (json_truthy status) then
     xbmc_log "[Tailscale] Cannot get status, daemon may not be running" LOGWARNING
   else
     backend <- json_get status "BackendState" ;;
     if json_eq_str backend "NeedsLogin" then
       auto_login <- getSetting "auto_login" ;;
       if String.eqb auto_login "true" then login E ;; ret tt
       else
         xbmc_log "[Tailscale] Authentication needed but auto_login disabled" LOGINFO ;;
         show_auth_notification E
     else ret tt) s1.
Proof. intros Hprobe. unfold authenticate_if_needed. unfold bind at 1. rewrite Hprobe. reflexivity. Qed.

Lemma json_get_non_dict (status : json) (key : string) (s : service) :
  (forall d, status <> JDict d) ->
  json_get status key s
  = (Raise (AttributeError
              ("'" +:+ json_type_name status +:+ "' object has no attribute 'get'")), s).
Proof. intros Hnd. destruct status; try reflexivity. exfalso. eapply Hnd. reflexivity. Qed.

Lemma bind_raise_eq {S A B} (c : M S A) (k : A -> M S B) (s s' : S) (e : exn) :
  c s = (Raise e, s') -> bind c k s = (Raise e, s').
Proof. intros Hc. unfold bind. rewrite Hc. reflexivity. Qed.

Lemma authenticate_non_dict (s s1 : service) (status : json) :
  get_tailscale_status E s = (Ret status, s1) ->
  json_truthy status = true ->
  (forall d, status <> JDict d) ->
  authenticate_if_needed E s
  = (Raise (AttributeError
              ("'" +:+ json_type_name status +:+ "' object has no attribute 'get'")), s1).
Proof.
  intros Hprobe Htrue Hnd.
  rewrite (authenticate_after_probe s s1 status Hprobe), Htrue. simpl.
  unfold bind. rewrite (json_get_non_dict status _ s1 Hnd). reflexivity.
Qed.

(** X8. Every call of [login] runs [tailscale up] exactly once, and
    [login] lets through no exception that derives from [Exception]. *)
Theorem login_runs_up_once (s : service) :
  (exists evs, trace (snd (login E s)) = trace s ++ evs /\ weight is_login evs = 1)
  /\ (forall e, fst (login E s) = Raise e -> is_Exception e = false).
Proof.
  split; [apply login_once |].
  intros e. rewrite login_eq. cbv zeta.
  destruct (env_run E _ _ (Some 60)) as [result | e'].
  - destruct (returncode result =? 0)%Z; discriminate.
  - destruct (is_Exception e') eqn:He'; [discriminate |].
    simpl. intros [= <-]. exact He'.
Qed.

(** X9. With a status whose [BackendState] is ["NeedsLogin"] and
    [auto_login] set to ["true"], the authentication step runs
    [tailscale up] exactly once, with or without an auth key. *)
Theorem needs_login_with_auto_login (s : service) (result : completed)
    (d : gmap string json) :
  env_run E (trace s) (status_cmd s) (Some 10) = inl result ->
  returncode result = 0%Z ->
  json_loads E (stdout result) = inl (JDict d) ->
  d !! "BackendState" = Some (JStr "NeedsLogin") ->
  default "" (settings s !! "auto_login") = "true" ->
  exists evs,
    trace (snd (authenticate_if_needed E s)) = trace s ++ evs
    /\ weight is_login evs = 1.
Proof.
  intros Hrun Hrc Hjson Hd Hauto.
  rewrite (authenticate_if_needed_dict E s result d _ Hrun Hrc Hjson Hd). simpl.
  rewrite Hauto. simpl.
  destruct (bind_weight_exact is_login (login E) (fun _ => ret tt)
              (emit (EvRun (status_cmd s) (Some 10)) s) 1) as (evs & Hevs & Hw).
  - apply login_once.
  - intros _. apply costs_ret.
  - exists (EvRun (status_cmd s) (Some 10) :: evs). simpl in Hevs.
    split; [rewrite Hevs, <- app_assoc; reflexivity |].
    simpl. exact Hw.
Qed.

(** X10. [login] returns [True] exactly when [tailscale up] could be run
    and exited with 0. *)
Theorem login_succeeds_iff_exit_zero (s : service) :
  let key := default "" (settings s !! "auth_key") in
  let cmd := login_cmd s key (default "" (settings s !! "hostname"))
               (String.eqb (default "" (settings s !! "accept_routes")) "true")
               (String.eqb (default "" (settings s !! "accept_dns")) "true") in
  let tr := trace (if Py.truthy key && Py.truthy (Py.strip key)
                   then emit (EvLog LOGINFO "[Tailscale] Using auth key for authentication") s
                   else s)
            ++ [EvLog LOGDEBUG ("[Tailscale] Logging in with command: " +:+ logged_cmd cmd)] in
  fst (login E s) = Ret true <->
  exists result, env_run E tr cmd (Some 60) = inl result /\ returncode result = 0%Z.
Proof.
  intros key cmd tr. rewrite login_eq. cbv zeta. fold key. fold cmd.
  change (trace (emit ?ev ?x)) with (trace x ++ [ev]). fold tr.
  destruct (env_run E tr cmd (Some 60)) as [result | e].
  - destruct (returncode result =? 0)%Z eqn:Hrc; simpl.
    + split; [| reflexivity]. intros _. exists result.
      split; [reflexivity | apply Z.eqb_eq; exact Hrc].
    + split; [discriminate |]. intros (r & [= <-] & Hr).
      apply Z.eqb_eq in Hr. congruence.
  - split.
    + destruct (is_Exception e); discriminate.
    + intros (r & Hr & _). discriminate.
Qed.

(** X11. When [tailscale up] exits non-zero, [login] returns [False], logs
    the error output, and shows the manual-authentication notification
    exactly when that output contains ["visit the admin console"]. *)
Theorem login_failure_prompts_manual_auth (s : service) (result : completed) :
  let key := default "" (settings s !! "auth_key") in
  let cmd := login_cmd s key (default "" (settings s !! "hostname"))
               (String.eqb (default "" (settings s !! "accept_routes")) "true")
               (String.eqb (default "" (settings s !! "accept_dns")) "true") in
  let tr := trace (if Py.truthy key && Py.truthy (Py.strip key)
                   then emit (EvLog LOGINFO "[Tailscale] Using auth key for authentication") s
                   else s)
            ++ [EvLog LOGDEBUG ("[Tailscale] Logging in with command: " +:+ logged_cmd cmd)] in
  env_run E tr cmd (Some 60) = inl result ->
  returncode result <> 0%Z ->
  fst (login E s) = Ret false
  /\ trace (snd (login E s))
     = tr ++ [ EvRun cmd (Some 60);
               EvLog LOGERROR ("[Tailscale] Login failed: " +:+ stderr result) ]
          ++ (if Py.contains (stderr result) "visit the admin console"
              then [ EvNotify "Tailscale Authentication Required"
                       "Please run 'tailscale up' manually or check addon settings"
                       NOTIFICATION_INFO 10000 ]
              else []).
Proof.
  intros key cmd tr Hrun Hrc. rewrite login_eq. cbv zeta. fold key. fold cmd.
  change (trace (emit ?ev ?x)) with (trace x ++ [ev]). fold tr.
  rewrite Hrun. apply Z.eqb_neq in Hrc. rewrite Hrc.
  split; [reflexivity |].
  destruct (Py.contains (stderr result) "visit the admin console");
    unfold tr; simpl; rewrite <- !app_assoc; reflexivity.
Qed.

(** X12. When the probe gives no usable status ([None] after a failed
    probe, or a document that is false in Python, as [{}] is), the
    authentication step logs a warning and does nothing else: no login. *)
Theorem authenticate_without_status (s s1 : service) (status : json) :
  get_tailscale_status E s = (Ret status, s1) ->
  json_truthy status = false ->
  authenticate_if_needed E s
  = (Ret tt,
     emit (EvLog LOGWARNING "[Tailscale] Cannot get status, daemon may not be running") s1)
  /\ weight is_login (trace (snd (authenticate_if_needed E s)))
     = weight is_login (trace s).
Proof.
  intros Hprobe Hfalse.
  rewrite (authenticate_after_probe s s1 status Hprobe), Hfalse. simpl.
  split; [reflexivity |].
  destruct (get_tailscale_status_logins s) as (evs & Hevs & Hw).
  rewrite Hprobe in Hevs. simpl in Hevs. rewrite Hevs, !weight_app. simpl. lia.
Qed.

(** X13. A status that is true in Python but is no dict (a JSON list, a
    string, a number) makes the authentication step raise
    [AttributeError]: nothing catches the failing [status.get]. *)
Theorem authenticate_raises_on_non_dict (s s1 : service) (status : json) :
  get_tailscale_status E s = (Ret status, s1) ->
  json_truthy status = true ->
  (forall d, status <> JDict d) ->
  authenticate_if_needed E s
  = (Raise (AttributeError
              ("'" +:+ json_type_name status +:+ "' object has no attribute 'get'")), s1).
Proof.
  apply authenticate_non_dict.
Qed.

(** X14. Such a status at the first authentication ends the whole
    service: [run] raises the [AttributeError] right after the probe,
    without entering the loop and without stopping the daemon it
    started. *)
Theorem unexpected_status_ends_service (s s1 s2 : service) (status : json)
    (fuel : nat) :
  start_tailscaled E (emit (EvLog LOGINFO "[Tailscale] Service starting") s)
  = (Ret true, s1) ->
  get_tailscale_status E (emit (EvSleep 3) s1) = (Ret status, s2) ->
  json_truthy status = true ->
  (forall d, status <> JDict d) ->
  run E fuel s
  = (Raise (AttributeError
              ("'" +:+ json_type_name status +:+ "' object has no attribute 'get'")), s2).
Proof.
  intros Hstart Hprobe Htrue Hnd.
  unfold run.
  rewrite (TailscaleConfigServiceFacts.bind_ret_eq _ _ s
             (emit (EvLog LOGINFO "[Tailscale] Service starting") s) tt eq_refl).
  rewrite (TailscaleConfigServiceFacts.bind_ret_eq _ _ _ s1 true Hstart).
  change (negb true) with false. cbv iota.
  rewrite (TailscaleConfigServiceFacts.bind_ret_eq _ _ s1 (emit (EvSleep 3) s1) tt eq_refl).
  apply bind_raise_eq. apply (authenticate_non_dict _ s2 status Hprobe Htrue Hnd).
Qed.

(** X15. With a status dict whose [BackendState] is anything but the
    string ["NeedsLogin"] (another state, a value of another type, or no
    such key), the authentication step does nothing after the probe. *)
Theorem other_backend_state_is_noop (s s1 : service) (d : gmap string json) :
  get_tailscale_status E s = (Ret (JDict d), s1) ->
  json_truthy (JDict d) = true ->
  json_eq_str (default JNone (d !! "BackendState")) "NeedsLogin" = false ->
  authenticate_if_needed E s = (Ret tt, s1).
Proof.
  intros Hprobe Htrue Hother.
  rewrite (authenticate_after_probe s s1 _ Hprobe), Htrue. simpl.
  unfold bind, ret. simpl. rewrite Hother. reflexivity.
Qed.

End More.

(** *** The statements at sample inputs *)

Import Scenario.

Lemma start_when_running_is_noop_witness :
  exists s', start_tailscaled running_world (service_of ∅) = (Ret true, s')
             /\ tailscaled_process s' = None.
Proof.
  destruct (start_when_running_is_noop running_world (service_of ∅))
    as (s' & Hrun & Hp & _); [reflexivity |].
  exists s'. split; [exact Hrun | exact Hp].
Defined.

Lemma foreign_daemon_is_not_stopped_witness :
  exists s',
    (start_tailscaled running_world ;; stop_tailscale running_world) (service_of ∅)
    = (Ret tt, s')
    /\ trace s' = [ EvRun pgrep_cmd None;
                    EvLog LOGINFO "[Tailscale] tailscaled already running" ].
Proof.
  destruct (foreign_daemon_is_not_stopped running_world (service_of ∅))
    as (s' & Hrun & Htr); [reflexivity | reflexivity |].
  exists s'. split; [exact Hrun | exact Htr].
Defined.

Lemma spawn_failure_is_reported_witness :
  exists s',
    start_tailscaled missing_binary_world (owning 7 (service_of ∅)) = (Ret false, s')
    /\ tailscaled_process s' = Some 7.
Proof.
  destruct (spawn_failure_is_reported missing_binary_world (owning 7 (service_of ∅))
              (mk_exn "FileNotFoundError" KException "[Errno 2] No such file or directory"))
    as (s' & Hrun & Hp & _); [reflexivity | reflexivity | reflexivity |].
  exists s'. split; [exact Hrun | exact Hp].
Defined.

Lemma start_result_follows_child_witness :
  exists s',
    start_tailscaled dying_world (service_of ∅) = (Ret false, s')
    /\ tailscaled_process s' = Some 1.
Proof.
  destruct (start_result_follows_child dying_world (service_of ∅) 1)
    as (started & s' & Hrun & Hp & Hiff); [reflexivity | reflexivity |].
  exists s'. split; [| exact Hp].
  destruct started; [| exact Hrun].
  destruct Hiff as [Hiff _]. specialize (Hiff eq_refl). discriminate Hiff.
Defined.

Lemma run_exits_on_failed_start_witness :
  log_lines (trace (snd (run dying_world 3 (service_of ∅))))
  = [ "[Tailscale] Service starting";
      "[Tailscale] Starting tailscaled: /storage/.kodi/addons/service.tailscale/bin/tailscaled --state=/storage/.kodi/userdata/addon_data/service.tailscale/tailscale-state/tailscaled.state --socket=/storage/.kodi/userdata/addon_data/service.tailscale/tailscale-state/tailscaled.sock --port=";
      "[Tailscale] tailscaled failed to start";
      "[Tailscale] Failed to start daemon, exiting" ].
Proof.
  rewrite (run_exits_on_failed_start dying_world (service_of ∅)
             (snd (start_tailscaled dying_world
                     (emit (EvLog LOGINFO "[Tailscale] Service starting") (service_of ∅))))
             3 eq_refl).
  reflexivity.
Defined.

Lemma needs_login_with_auto_login_witness :
  exists evs,
    trace (snd (authenticate_if_needed needs_login_world
                  (service_of {[ "auto_login" := "true" ]}))) = evs
    /\ weight is_login evs = 1.
Proof.
  destruct (needs_login_with_auto_login needs_login_world
              (service_of {[ "auto_login" := "true" ]})
              (ok (status_json "NeedsLogin")) {[ "BackendState" := JStr "NeedsLogin" ]})
    as (evs & Hevs & Hw); [reflexivity | reflexivity | reflexivity | reflexivity | reflexivity |].
  exists evs. split; [exact Hevs | exact Hw].
Defined.

Lemma login_failure_prompts_manual_auth_witness :
  fst (login approval_world (service_of {[ "auth_key" := "tskey-abc123" ]})) = Ret false.
Proof.
  apply (login_failure_prompts_manual_auth approval_world
           (service_of {[ "auth_key" := "tskey-abc123" ]})
           (failed "to approve this device, visit the admin console"));
    [reflexivity | discriminate].
Defined.

Lemma authenticate_without_status_witness :
  weight is_login (trace (snd (authenticate_if_needed empty_status_world
                                 (service_of {[ "auto_login" := "true" ]})))) = 0.
Proof.
  apply (authenticate_without_status empty_status_world
           (service_of {[ "auto_login" := "true" ]})
           (snd (get_tailscale_status empty_status_world
                   (service_of {[ "auto_login" := "true" ]})))
           (JDict ∅));
    reflexivity.
Defined.

Lemma authenticate_raises_on_non_dict_witness :
  fst (authenticate_if_needed list_status_world (service_of ∅))
  = Raise (AttributeError "'list' object has no attribute 'get'").
Proof.
  rewrite (authenticate_raises_on_non_dict list_status_world (service_of ∅)
             (snd (get_tailscale_status list_status_world (service_of ∅)))
             (JList [JInt 1]) eq_refl eq_refl); [reflexivity |].
  intros d. discriminate.
Defined.

Lemma unexpected_status_ends_service_witness :
  fst (run list_status_world 3 (service_of ∅))
  = Raise (AttributeError "'list' object has no attribute 'get'").
Proof.
  rewrite (unexpected_status_ends_service list_status_world (service_of ∅)
             (snd (start_tailscaled list_status_world
                     (emit (EvLog LOGINFO "[Tailscale] Service starting") (service_of ∅))))
             (snd (get_tailscale_status list_status_world
                     (emit (EvSleep 3)
                        (snd (start_tailscaled list_status_world
                                (emit (EvLog LOGINFO "[Tailscale] Service starting")
                                   (service_of ∅)))))))
             (JList [JInt 1]) 3 eq_refl eq_refl eq_refl); [reflexivity |].
  intros d. discriminate.
Defined.

Lemma other_backend_state_is_noop_witness :
  fst (authenticate_if_needed stopped_world (service_of {[ "auto_login" := "true" ]}))
  = Ret tt.
Proof.
  rewrite (other_backend_state_is_noop stopped_world
             (service_of {[ "auto_login" := "true" ]})
             (snd (get_tailscale_status stopped_world
                     (service_of {[ "auto_login" := "true" ]})))
             {[ "BackendState" := JStr "Stopped" ]} eq_refl eq_refl eq_refl).
  reflexivity.
Defined.

End TailscaleServiceMore.

(** ** More about [TailscaleConfigService] and the restart script *)

Module TailscaleConfigServiceMore.
Import TailscaleConfigService TailscaleConfigServiceFacts.

#[local] Arguments cmd_parts : simpl never.
#[local] Arguments Py.join : simpl never.
#[local] Arguments Py.strip : simpl never.

Ltac step tac :=
  match goal with
  | |- context [@bind ?S ?A ?B ?c ?k ?s] =>
      let H := fresh "Hstep" in
      eassert (H : c s = (Ret _, _)) by tac;
      rewrite (@bind_ret_eq S A B c k s _ _ H); clear H
  end.

Lemma shell_cmds_app (a b : list event) : shell_cmds (a ++ b) = shell_cmds a ++ shell_cmds b.
Proof. apply omap_app. Qed.

Lemma removals_app (a b : list event) : removals (a ++ b) = removals a ++ removals b.
Proof. apply omap_app. Qed.

Section More.
Variable E : Env.

(** [run_command], spelled out by the outcome of the shell. *)
Lemma run_command_eq (cmd : string) (s : service) :
  run_command E cmd s =
  match env_shell E (trace s) cmd with
  | inl result =>
      (Ret ((returncode result =? 0)%Z, Py.strip (stdout result), Py.strip (stderr result)),
       emit (EvShell cmd) s)
  | inr e =>
      if is_Exception e
      then (Ret (false, "", exn_str e),
            emit (EvLog LOGINFO ("[Tailscale Config] " +:+ "Command failed: " +:+ cmd
                                 +:+ " - Error: " +:+ exn_str e))
              (emit (EvShell cmd) s))
      else (Raise e, emit (EvShell cmd) s)
  end.
Proof.
  unfold run_command, try_except_Exception, bind, subprocess_shell, call, log,
    xbmc_log, perform, ret. simpl.
  destruct (env_shell E (trace s) cmd) as [result | e]; simpl; [reflexivity |].
  destruct (is_Exception e); reflexivity.
Qed.

(** X16. [run_command] lets through no exception that derives from
    [Exception], and it reports success exactly when the command could be
    run and exited with 0; the outputs it returns then are the command's,
    stripped. *)
Theorem run_command_reports_success (cmd : string) (s : service) :
  (forall e, fst (run_command E cmd s) = Raise e -> is_Exception e = false)
  /\ (forall out err,
        fst (run_command E cmd s) = Ret (true, out, err) <->
        exists result,
          env_shell E (trace s) cmd = inl result
          /\ returncode result = 0%Z
          /\ out = Py.strip (stdout result)
          /\ err = Py.strip (stderr result)).
Proof.
  rewrite run_command_eq.
  destruct (env_shell E (trace s) cmd) as [result | e]; simpl.
  - split; [discriminate |]. intros out err. split.
    + intros [= Hrc <- <-]. exists result. apply Z.eqb_eq in Hrc. auto.
    + intros (r & [= <-] & Hrc & -> & ->). apply Z.eqb_eq in Hrc. rewrite Hrc. reflexivity.
  - destruct (is_Exception e) eqn:He; simpl.
    + split; [discriminate |]. intros out err.
      split; [discriminate | intros (r & Hr & _); discriminate].
    + split; [intros e' [= <-]; exact He |]. intros out err.
      split; [discriminate | intros (r & Hr & _); discriminate].
Qed.

Section Contained.
(** The shell raises nothing that [run_command] cannot catch. *)
Hypothesis shell_raises_Exception :
  forall tr cmd e, env_shell E tr cmd = inr e -> is_Exception e = true.

(** A call of [run_command] then returns, having run its command and
    touched no file. *)
Lemma run_command_shape (cmd : string) (s : service) :
  exists r s' evs,
    run_command E cmd s = (Ret r, s')
    /\ trace s' = trace s ++ evs
    /\ shell_cmds evs = [cmd]
    /\ weight is_file_write evs = 0
    /\ removals evs = [].
Proof.
  rewrite run_command_eq.
  destruct (env_shell E (trace s) cmd) as [result | e] eqn:Hsh.
  - exists ((returncode result =? 0)%Z, Py.strip (stdout result), Py.strip (stderr result)).
    do 2 eexists. split; [reflexivity |]. simpl. repeat split; reflexivity.
  - rewrite (shell_raises_Exception _ _ _ Hsh).
    do 3 eexists. split; [reflexivity |]. simpl. rewrite <- app_assoc. simpl.
    repeat split; reflexivity.
Qed.

(** X17. With the service disabled, or with an auth key that is empty
    once stripped of white space (a key of non-breaking spaces is such a
    key), and a shell that raises nothing outside [Exception],
    [apply_settings] hands the shell exactly [systemctl stop tailscale]
    and [systemctl disable tailscale]: it never runs [tailscale up],
    writes no file, and removes at most the stored auth key. *)
Theorem disabled_settings_stop_the_service (s : service) :
  negb (String.eqb (default "" (settings s !! "enabled")) "true")
  || negb (Py.truthy (Py.strip (default "" (settings s !! "authkey")))) = true ->
  exists evs,
    trace (snd (apply_settings E s)) = trace s ++ evs
    /\ shell_cmds evs = ["systemctl stop tailscale"; "systemctl disable tailscale"]
    /\ weight is_file_write evs = 0
    /\ (removals evs = [] \/ removals evs = [authkey_file]).
Proof.
  intros Hoff. unfold apply_settings.
  do 7 (step ltac:(idtac; reflexivity)).
  cbv zeta. rewrite Hoff.
  step ltac:(idtac; reflexivity).
  step ltac:(idtac; reflexivity).
  match goal with
  | |- context [@bind _ _ _ (run_command E ?cmd) _ ?s0] =>
      destruct (run_command_shape cmd s0) as (r1 & s1 & evs1 & Hr1 & Ht1 & Hc1 & Hw1 & Hm1)
  end.
  step ltac:(idtac; exact Hr1).
  match goal with
  | |- context [@bind _ _ _ (run_command E ?cmd) _ ?s0] =>
      destruct (run_command_shape cmd s0) as (r2 & s2 & evs2 & Hr2 & Ht2 & Hc2 & Hw2 & Hm2)
  end.
  step ltac:(idtac; exact Hr2).
  step ltac:(idtac; reflexivity).
  simpl in Ht1.
  destruct (env_exists E (get_trace s2) authkey_file).
  - unfold remove, attempt.
    destruct (env_remove E _ authkey_file); simpl; rewrite Ht2, Ht1.
    all: eexists; split; [rewrite <- !app_assoc; reflexivity |].
    all: rewrite ?shell_cmds_app, ?removals_app, ?weight_app, Hc1, Hc2, Hw1, Hw2, Hm1, Hm2.
    all: simpl; rewrite ?shell_cmds_app, ?removals_app, ?weight_app, ?Hc1, ?Hc2, ?Hw1, ?Hw2, ?Hm1, ?Hm2.
    all: simpl; repeat split; try reflexivity; right; reflexivity.
  - simpl. rewrite Ht2, Ht1.
    eexists. split; [rewrite <- !app_assoc; reflexivity |].
    simpl. rewrite ?shell_cmds_app, ?removals_app, ?weight_app, ?Hc1, ?Hc2, ?Hw1, ?Hw2, ?Hm1, ?Hm2.
    simpl. rewrite ?shell_cmds_app, ?removals_app, ?weight_app, ?Hc1, ?Hc2, ?Hw1, ?Hw2, ?Hm1, ?Hm2.
    simpl. repeat split; try reflexivity. left; reflexivity.
Qed.

(** X18. With the service enabled and an auth key that is not empty once
    stripped of white space, with the key file written and its mode set
    without error, and with a shell that raises nothing outside
    [Exception], [apply_settings] hands the shell
    [systemctl enable tailscale], [systemctl start tailscale] and then the
    [tailscale up] command line built from the stripped settings, in this
    order and whatever the first two return. *)
Theorem enabled_settings_run_up_last (s : service) :
  (forall tr path content, env_write E tr path content = None) ->
  (forall tr path mode, env_chmod E tr path mode = None) ->
  String.eqb (default "" (settings s !! "enabled")) "true" = true ->
  Py.truthy (Py.strip (default "" (settings s !! "authkey"))) = true ->
  exists evs,
    trace (snd (apply_settings E s)) = trace s ++ evs
    /\ shell_cmds evs
       = [ "systemctl enable tailscale";
           "systemctl start tailscale";
           Py.join " "
             (cmd_parts (Py.strip (default "" (settings s !! "authkey")))
                (Py.strip (default "" (settings s !! "exit_node")))
                (Py.strip (default "" (settings s !! "hostname")))
                (Py.strip (default "" (settings s !! "advertise_routes")))
                (String.eqb (default "" (settings s !! "accept_routes")) "true")
                (String.eqb (default "" (settings s !! "ssh_enabled")) "true")) ].
Proof.
  intros Hwrite Hchmod Hen Hkey. unfold apply_settings.
  do 7 (step ltac:(idtac; reflexivity)).
  cbv zeta. rewrite Hen, Hkey.
  step ltac:(idtac; reflexivity).
  change (negb true || negb true) with false. cbv iota.
  step ltac:(idtac; unfold write_file, attempt; rewrite Hwrite; reflexivity).
  step ltac:(idtac; unfold chmod, attempt; rewrite Hchmod; reflexivity).
  step ltac:(idtac; reflexivity).
  match goal with
  | |- context [@bind _ _ _ (run_command E ?cmd) _ ?s0] =>
      destruct (run_command_shape cmd s0) as (r1 & s1 & evs1 & Hr1 & Ht1 & Hc1 & _)
  end.
  step ltac:(idtac; exact Hr1).
  match goal with
  | |- context [@bind _ _ _ (run_command E ?cmd) _ ?s0] =>
      destruct (run_command_shape cmd s0) as (r2 & s2 & evs2 & Hr2 & Ht2 & Hc2 & _)
  end.
  step ltac:(idtac; exact Hr2).
  step ltac:(idtac; reflexivity).
  step ltac:(idtac; reflexivity).
  match goal with
  | |- context [@bind _ _ _ (run_command E ?cmd) _ ?s0] =>
      destruct (run_command_shape cmd s0) as (r3 & s3 & evs3 & Hr3 & Ht3 & Hc3 & _)
  end.
  step ltac:(idtac; exact Hr3).
  match goal with
  | |- context [snd (?rest s3)] =>
      assert (Hrest : exists evs4, trace (snd (rest s3)) = trace s3 ++ evs4
                                   /\ shell_cmds evs4 = [])
  end.
  { destruct r3 as [[[] out] err]; unfold bind, log, xbmc_log, perform, notification, attempt;
      simpl; destruct (env_notify E _); simpl; rewrite <- app_assoc;
      eexists; (split; [reflexivity | reflexivity]). }
  destruct Hrest as (evs4 & Ht4 & Hc4). rewrite Ht4, Ht3. simpl. rewrite Ht2, Ht1. simpl.
  eexists. split; [rewrite <- !app_assoc; reflexivity |].
  repeat (progress (simpl; rewrite ?shell_cmds_app, ?Hc1, ?Hc2, ?Hc3, ?Hc4)).
  reflexivity.
Qed.

End Contained.

(** X19. With the service enabled and an auth key that is not empty once
    stripped of white space, the first thing [apply_settings] does after
    its opening log line is to write the stripped key to the key file and,
    the write having succeeded, to set the file's mode to 0600; when that
    succeeds too the method goes on, and no command was run before. *)
Theorem key_file_is_written_first (s : service) :
  let key := Py.strip (default "" (settings s !! "authkey")) in
  let tr := trace s ++
            [EvLog LOGINFO ("[Tailscale Config] "
                            +:+ "Applying settings - Enabled: " +:+ Py.str_bool true
                            +:+ ", Has authkey: " +:+ Py.str_bool true)] in
  String.eqb (default "" (settings s !! "enabled")) "true" = true ->
  Py.truthy key = true ->
  env_write E tr authkey_file key = None ->
  env_chmod E (tr ++ [EvWriteFile authkey_file key]) authkey_file 384 = None ->
  exists evs,
    trace (snd (apply_settings E s))
    = tr ++ [EvWriteFile authkey_file key; EvChmod authkey_file 384] ++ evs
    /\ shell_cmds tr = shell_cmds (trace s).
Proof.
  intros key tr Hen Hkey Hwrite Hchmod. unfold apply_settings.
  do 7 (step ltac:(idtac; reflexivity)).
  cbv zeta. fold key. rewrite Hen, Hkey.
  step ltac:(idtac; reflexivity).
  change (negb true || negb true) with false. cbv iota.
  step ltac:(idtac; unfold write_file, attempt;
             change (env_write E _ _ _) with (env_write E tr authkey_file key);
             rewrite Hwrite; reflexivity).
  step ltac:(idtac; unfold chmod, attempt;
             change (env_chmod E _ _ _)
               with (env_chmod E (tr ++ [EvWriteFile authkey_file key]) authkey_file 384);
             rewrite Hchmod; reflexivity).
  match goal with
  | |- context [snd (?rest ?s0)] =>
      assert (Hrest : costs (fun _ => 0) 0 rest);
      [| destruct (Hrest s0) as (evs & Hevs & _) ]
  end.
  { unfold run_command, log, xbmc_log, subprocess_shell, notification, sleep. quiet. }
  exists evs. split.
  - etransitivity; [exact Hevs |].
    unfold tr. simpl. rewrite <- !app_assoc. reflexivity.
  - unfold tr. rewrite shell_cmds_app. simpl. apply app_nil_r.
Qed.

(** X20. With the service enabled and an auth key that is not empty once
    stripped of white space, when the key file cannot be written
    [apply_settings] stops there: the exception leaves the method, and
    nothing follows the attempt to write, so no command is run. *)
Theorem key_file_failure_aborts (s : service) (e : exn) :
  let key := Py.strip (default "" (settings s !! "authkey")) in
  let tr := trace s ++
            [EvLog LOGINFO ("[Tailscale Config] "
                            +:+ "Applying settings - Enabled: " +:+ Py.str_bool true
                            +:+ ", Has authkey: " +:+ Py.str_bool true)] in
  String.eqb (default "" (settings s !! "enabled")) "true" = true ->
  Py.truthy key = true ->
  env_write E tr authkey_file key = Some e ->
  fst (apply_settings E s) = Raise e
  /\ trace (snd (apply_settings E s)) = tr ++ [EvWriteFile authkey_file key].
Proof.
  intros key tr Hen Hkey Hwrite. unfold apply_settings.
  do 7 (step ltac:(idtac; reflexivity)).
  cbv zeta. fold key. rewrite Hen, Hkey.
  step ltac:(idtac; reflexivity).
  change (negb true || negb true) with false. cbv iota.
  match goal with
  | |- context [@bind ?S ?A ?B ?c ?k ?s0] =>
      assert (Hraise : c s0 = (Raise e, emit (EvWriteFile authkey_file key) s0));
      [| rewrite (@TailscaleServiceMore.bind_raise_eq S A B c k s0 _ e Hraise) ]
  end.
  { unfold write_file, attempt.
    change (env_write E _ _ _) with (env_write E tr authkey_file key).
    rewrite Hwrite. reflexivity. }
  split; reflexivity.
Qed.

(** X21. After the settings have been applied at start-up, the service
    loop only asks Kodi's monitor whether to stop: however long it runs,
    it runs no command and touches no file, so a later change of the
    settings is not applied by it. *)
Theorem config_loop_only_waits (fuel : nat) :
  costs is_not_monitor 0 (TailscaleConfigService.run_loop E fuel).
Proof.
  induction fuel as [|fuel IH]; simpl; [apply costs_silent; reflexivity |].
  apply costs_bind0; [quiet | intros abort].
  destruct abort; [apply costs_ret |].
  apply costs_bind0; [quiet | intros woken].
  destruct woken; [apply costs_ret | exact IH].
Qed.

(** [restart.py]'s own [run_command] returns whatever the shell does,
    short of an exception outside [Exception]. *)
Lemma restart_run_command_eq (cmd : string) (s : service) :
  Restart.run_command E cmd s =
  match env_shell E (trace s) cmd with
  | inl result =>
      (Ret ((returncode result =? 0)%Z, Py.strip (stdout result), Py.strip (stderr result)),
       emit (EvShell cmd) s)
  | inr e =>
      if is_Exception e
      then (Ret (false, "", exn_str e), emit (EvShell cmd) s)
      else (Raise e, emit (EvShell cmd) s)
  end.
Proof.
  unfold Restart.run_command, try_except_Exception, bind, subprocess_shell, call, ret.
  simpl. destruct (env_shell E (trace s) cmd) as [result | e]; simpl; [reflexivity |].
  destruct (is_Exception e); reflexivity.
Qed.

(** X22. The restart script applies the settings whatever became of
    [systemctl restart tailscale]: whether the command succeeded, failed or
    could not be run, the script sleeps 3 seconds, makes sure the
    configuration directory exists and goes on to [apply_settings]. *)
Theorem restart_reapplies_settings (s : service) :
  (forall e, env_shell E (trace s) "systemctl restart tailscale" = inr e ->
             is_Exception e = true) ->
  env_makedirs E ((trace s ++ [EvShell "systemctl restart tailscale"]) ++ [EvSleep 3])
    config_dir = None ->
  Restart.main E s
  = apply_settings E
      (emit (EvMakedirs config_dir)
         (emit (EvSleep 3) (emit (EvShell "systemctl restart tailscale") s))).
Proof.
  intros Hshell Hmk. unfold Restart.main.
  unfold bind at 1. rewrite restart_run_command_eq.
  destruct (env_shell E (trace s) "systemctl restart tailscale") as [result | e] eqn:Hsh.
  - unfold bind at 1. unfold sleep at 1, perform.
    unfold bind at 1. unfold init, makedirs, attempt. simpl. rewrite Hmk. reflexivity.
  - rewrite (Hshell e eq_refl).
    unfold bind at 1. unfold sleep at 1, perform.
    unfold bind at 1. unfold init, makedirs, attempt. simpl. rewrite Hmk. reflexivity.
Qed.

End More.

(** *** The statements at sample inputs *)

Import Scenario.

Lemma disabled_settings_stop_the_service_witness :
  exists evs,
    trace (snd (apply_settings running_world
                  (mk_service (<["enabled" := "true"]>
                                 {[ "authkey" := nbsp +:+ " " +:+ nbsp ]}) []))) = evs
    /\ shell_cmds evs = ["systemctl stop tailscale"; "systemctl disable tailscale"]
    /\ weight is_file_write evs = 0.
Proof.
  destruct (disabled_settings_stop_the_service running_world) with
    (s := mk_service (<["enabled" := "true"]> {[ "authkey" := nbsp +:+ " " +:+ nbsp ]}) [])
    as (evs & Hevs & Hcmds & Hw & _).
  - intros tr cmd e. discriminate.
  - reflexivity.
  - exists evs. split; [exact Hevs |]. split; [exact Hcmds | exact Hw].
Defined.

Lemma enabled_settings_run_up_last_witness :
  exists evs,
    trace (snd (apply_settings running_world
                  (mk_service (<["enabled" := "true"]> {[ "authkey" := " tskey-abc123 " ]}) [])))
    = evs
    /\ shell_cmds evs
       = [ "systemctl enable tailscale";
           "systemctl start tailscale";
           "/storage/.kodi/addons/service.tailscale/bin/tailscale up --authkey=tskey-abc123" ].
Proof.
  destruct (enabled_settings_run_up_last running_world) with
    (s := mk_service (<["enabled" := "true"]> {[ "authkey" := " tskey-abc123 " ]}) [])
    as (evs & Hevs & Hcmds).
  - intros tr cmd e. discriminate.
  - reflexivity.
  - reflexivity.
  - reflexivity.
  - reflexivity.
  - exists evs. split; [exact Hevs | exact Hcmds].
Defined.

Lemma key_file_is_written_first_witness :
  exists evs,
    trace (snd (apply_settings running_world
                  (mk_service (<["enabled" := "true"]> {[ "authkey" := " tskey-abc123 " ]}) [])))
    = [ EvLog LOGINFO "[Tailscale Config] Applying settings - Enabled: True, Has authkey: True";
        EvWriteFile "/storage/.config/tailscale/authkey" "tskey-abc123";
        EvChmod "/storage/.config/tailscale/authkey" 384 ] ++ evs.
Proof.
  destruct (key_file_is_written_first running_world
              (mk_service (<["enabled" := "true"]> {[ "authkey" := " tskey-abc123 " ]}) []))
    as (evs & Hevs & _); [reflexivity | reflexivity | reflexivity | reflexivity |].
  exists evs. exact Hevs.
Defined.

Lemma key_file_failure_aborts_witness :
  shell_cmds (trace (snd (apply_settings readonly_world
                            (mk_service (<["enabled" := "true"]>
                                           {[ "authkey" := "tskey-abc123" ]}) []))))
  = [].
Proof.
  destruct (key_file_failure_aborts readonly_world
              (mk_service (<["enabled" := "true"]> {[ "authkey" := "tskey-abc123" ]}) [])
              (mk_exn "PermissionError" KException "[Errno 13] Permission denied"))
    as (_ & Htr); [reflexivity | reflexivity | reflexivity |].
  rewrite Htr. reflexivity.
Defined.

Lemma restart_reapplies_settings_witness :
  shell_cmds (trace (snd (Restart.main running_world (mk_service ∅ []))))
  = [ "systemctl restart tailscale";
      "systemctl stop tailscale";
      "systemctl disable tailscale" ].
Proof.
  rewrite (restart_reapplies_settings running_world (mk_service ∅ [])).
  - reflexivity.
  - intros e. discriminate.
  - reflexivity.
Defined.

End TailscaleConfigServiceMore.

(** ** More about [RavenSetupWizard]: host name, dialogs, completion marker *)

Module RavenSetupWizardMore.
Import RavenSetupWizard.

Lemma truthy_nonempty (s : string) : Py.truthy s = true -> s <> "".
Proof. destruct s; [discriminate | discriminate]. Qed.

Lemma get_hostname_nonempty (gethostname cpuinfo : string + exn) :
  get_hostname gethostname cpuinfo <> "".
Proof.
  unfold get_hostname.
  destruct gethostname as [hostname | e].
  - destruct (Py.truthy hostname && negb (String.eqb hostname "localhost")) eqn:Hok.
    + apply andb_prop in Hok as [Hne _]. apply truthy_nonempty, Hne.
    + destruct cpuinfo as [text | e'];
        [destruct (Py.contains text "Raspberry Pi 4");
         [| destruct (Py.contains text "Raspberry Pi 5")] |]; discriminate.
  - destruct cpuinfo as [text | e'];
      [destruct (Py.contains text "Raspberry Pi 4");
       [| destruct (Py.contains text "Raspberry Pi 5")] |]; discriminate.
Qed.

(** X23. The host name the wizard starts from is never empty and never
    ["localhost"], whatever the system reports and whether or not
    [/proc/cpuinfo] can be read. *)
Theorem get_hostname_is_usable (gethostname cpuinfo : string + exn) :
  get_hostname gethostname cpuinfo <> ""
  /\ get_hostname gethostname cpuinfo <> "localhost".
Proof.
  split; [apply get_hostname_nonempty |].
  unfold get_hostname.
  destruct gethostname as [hostname | e].
  - destruct (Py.truthy hostname && negb (String.eqb hostname "localhost")) eqn:Hok.
    + apply andb_prop in Hok as [_ Hnl]. apply negb_true_iff in Hnl.
      apply String.eqb_neq. exact Hnl.
    + destruct cpuinfo as [text | e'];
        [destruct (Py.contains text "Raspberry Pi 4");
         [| destruct (Py.contains text "Raspberry Pi 5")] |]; discriminate.
  - destruct cpuinfo as [text | e'];
      [destruct (Py.contains text "Raspberry Pi 4");
       [| destruct (Py.contains text "Raspberry Pi 5")] |]; discriminate.
Qed.

(** Whatever the values, a call of [Dialog().input] with a second
    positional argument and a [defaultt] keyword does not bind. *)
Lemma input_with_message_and_defaultt (heading message : string) (kwargs : list (string * value)) :
  lookup_kw "defaultt" kwargs <> None ->
  exists e, bind_arguments Dialog_input [VStr heading; VStr message] kwargs = inl e
            /\ exn_class e = "TypeError" /\ is_Exception e = true.
Proof.
  intros Hkw. unfold bind_arguments.
  destruct (_ <? _); [eexists; split; [reflexivity | split; reflexivity] |].
  destruct (parse_params _ _ _ _ _) as [e | bound] eqn:Hparse.
  - exists e. split; [reflexivity |].
    cbn in Hparse.
    repeat match type of Hparse with
           | context [lookup_kw ?n kwargs] =>
               destruct (lookup_kw n kwargs) as [[?|?] |]; cbn in Hparse
           end; inversion Hparse; subst; split; reflexivity.
  - cbn. destruct (lookup_kw "defaultt" kwargs); [| congruence].
    destruct (lookup_kw "heading" kwargs);
      eexists; (split; [reflexivity | split; reflexivity]).
Qed.

Section Dialogs.
Variable answer : list (string * value) -> string.

(** X24. [get_jellyfin_config] never gets an answer: its first call of
    [dialog.input] passes the prompt as second positional argument, which
    Kodi takes for [defaultt], and [defaultt] again by keyword, so the call
    raises [TypeError] before any dialog opens.  The method raises it to
    its caller, with nothing stored in the configuration and nothing
    done. *)
Theorem jellyfin_config_raises_TypeError (w : wizard) :
  exists e,
    get_jellyfin_config answer w = (Raise e, w)
    /\ exn_class e = "TypeError"
    /\ is_Exception e = true.
Proof.
  unfold get_jellyfin_config, dialog_input, invoke.
  destruct (input_with_message_and_defaultt "Jellyfin Server Address"
              "Enter your Jellyfin server URL (e.g., http://192.168.1.100:8096)"
              [("defaultt", VStr "")]) as (e & Hbind & Hclass & Hexc); [discriminate |].
  exists e. unfold bind at 1. unfold bind at 1. rewrite Hbind.
  split; [reflexivity | split; assumption].
Qed.


End Dialogs.

(** X29. [mark_setup_complete] never raises: it returns [True] when the
    marker file could be written and [False] on any failure, whatever its
    class. *)
Theorem mark_setup_complete_total (E : Env) (w : wizard) :
  let date := env_strftime E (trace w) "%Y-%m-%d %H:%M:%S" in
  exists done,
    mark_setup_complete E w
    = (Ret done, emit (EvWriteFile "/storage/.config/raven-setup-complete" date) w)
    /\ (done = true <->
        env_write E (trace w) "/storage/.config/raven-setup-complete" date = None).
Proof.
  intros date.
  unfold mark_setup_complete, try_except, bind, strftime, write_file, attempt, ret.
  simpl. fold date.
  destruct (env_write E (trace w) _ date) as [e |]; simpl.
  - exists false. split; [reflexivity |]. split; discriminate.
  - exists true. split; [reflexivity |]. split; reflexivity.
Qed.

End RavenSetupWizardMore.
